(** * ClusterFuzz fuzzing execution core: a shallow embedding

    The development embeds the parts of the bot that the specification's
    testable properties talk about:

    - [Engine]       : bot/fuzzers/engine.py (engine registry, result records)
    - [Regex]        : the fragment of Python's [re] used by the launcher
    - [Launcher]     : bot/fuzzers/libFuzzer/launcher.py
    - [EngineCommon] : bot/fuzzers/engine_common.py
    - [LibFuzzer]    : bot/fuzzers/libfuzzer.py and bot/fuzzers/libFuzzer/engine.py
    - [Progression]  : bot/tasks/progression_task.py

    Integers are unbounded ([Z]), strings are [string], dictionaries are
    [gmap]s, and every external collaborator (engine child process, build
    manager, datastore helper that is not part of the sources) is either an
    explicit argument or a definition marked as modelled from the
    specification. *)

From stdpp Require Import gmap strings list fin_maps pretty.
From Stdlib Require Import ZArith Ascii.

Open Scope Z_scope.

(* ================================================================== *)
(** * Python values and exceptions *)
(* ================================================================== *)

Module Py.

(** The exceptions raised on the paths that are modelled. *)
Inductive exn :=
| ValueError (msg : string)
| AssertionError
| IndexError
| BuildSetupError (revision : Z)
| BadBuildError (revision : Z)
| BuildNotFoundError (revision : Z)
| MergeError (msg : string)
| TypeError
| ZeroDivisionError
| AttributeError.

(** A call either returns a value or raises. *)
Inductive result (A : Type) :=
| Ok (a : A)
| Raise (e : exn).
Arguments Ok {A} a.
Arguments Raise {A} e.

Definition bind {A B} (r : result A) (k : A → result B) : result B :=
  match r with
  | Ok a => k a
  | Raise e => Raise e
  end.

(** [l[i]]: a negative index counts from the end, anything out of range
    raises [IndexError]. *)
Definition index {A} (l : list A) (i : Z) : result A :=
  let n := Z.of_nat (length l) in
  let j := if decide (i < 0) then i + n else i in
  if decide (0 ≤ j < n) then
    match l !! Z.to_nat j with
    | Some x => Ok x
    | None => Raise IndexError
    end
  else Raise IndexError.

(** [del l[i]]. *)
Definition del {A} (l : list A) (i : Z) : result (list A) :=
  let n := Z.of_nat (length l) in
  let j := if decide (i < 0) then i + n else i in
  if decide (0 ≤ j < n) then Ok (delete (Z.to_nat j) l)
  else Raise IndexError.

(** ['%d' % z]. *)
Definition fmt_d (z : Z) : string := pretty z.

(** ['%0<w>d' % z] for a non-negative [z]: left padding with zeros. *)
Definition fmt_0d (w : nat) (z : Z) : string :=
  let s := pretty z in
  String.concat "" (replicate (w - String.length s)%nat "0"%string) +:+ s.

(** [s.isdigit()] on ASCII text: at least one character, all of them
    decimal digits. *)
Definition is_digit (c : ascii) : bool :=
  let n := nat_of_ascii c in bool_decide (48 ≤ n ∧ n ≤ 57)%nat.

Definition isdigit (s : string) : bool :=
  match String.list_ascii_of_string s with
  | [] => false
  | l => forallb is_digit l
  end.

(** The value of a string of decimal digits. *)
Definition digits_value (l : list ascii) : Z :=
  foldl (λ acc c, 10 * acc + (Z.of_nat (nat_of_ascii c) - 48)) 0 l.

(** [int(s)] for an optional sign followed by decimal digits; anything
    else raises [ValueError]. *)
Definition int (s : string) : result Z :=
  let digits l :=
    match l with
    | [] => None
    | _ => if forallb is_digit l then Some (digits_value l) else None
    end in
  let r :=
    match String.list_ascii_of_string s with
    | "-"%char :: l => Z.opp <$> digits l
    | "+"%char :: l => digits l
    | l => digits l
    end in
  match r with
  | Some z => Ok z
  | None => Raise (ValueError s)
  end.

(** [s.startswith(prefix)] and [s.endswith(suffix)] *)
Definition startswith (s prefix : string) : bool := String.prefix prefix s.

Definition endswith (s suffix : string) : bool :=
  bool_decide (String.list_ascii_of_string suffix
               `suffix_of` String.list_ascii_of_string s).

(** [s.splitlines()] on a byte string: lines end at a line feed, a
    carriage return, or a carriage return followed by a line feed; the line
    ends are dropped.  [cur] is the current line, last character first. *)
Fixpoint splitlines_from (cur s : list ascii) : list string :=
  match s with
  | [] =>
      match cur with
      | [] => []
      | _ => [String.string_of_list_ascii (rev cur)]
      end
  | c :: s' =>
      if decide (nat_of_ascii c = 10%nat) then
        String.string_of_list_ascii (rev cur) :: splitlines_from [] s'
      else if decide (nat_of_ascii c = 13%nat) then
        match s' with
        | c' :: s'' =>
            if decide (nat_of_ascii c' = 10%nat) then
              String.string_of_list_ascii (rev cur) :: splitlines_from [] s''
            else
              String.string_of_list_ascii (rev cur) :: splitlines_from [] s'
        | [] => [String.string_of_list_ascii (rev cur)]
        end
      else splitlines_from (c :: cur) s'
  end.

Definition splitlines (s : string) : list string :=
  splitlines_from [] (String.list_ascii_of_string s).

(** The one-character string made of a line feed, and the join of a list
    of lines with it. *)
Definition LF : string := String (ascii_of_nat 10) EmptyString.

Definition join_lines (lines : list string) : string :=
  String.concat LF lines.

#[global] Instance result_ret : MRet result := @Ok.
#[global] Instance result_bind : MBind result :=
  λ A B k r, bind r k.

End Py.

Export Py (result, Ok, Raise, result_ret, result_bind).

(* ================================================================== *)
(** * bot/fuzzers/engine.py *)
(* ================================================================== *)

Module Engine.

(** What [register_engine] receives: something with a [name] that can be
    called to construct an engine.  [class_id] tells implementations
    apart. *)
Record impl := Impl {
  name : string;
  class_id : nat;
}.

(** An engine object; [object_id] is the identity of the object (what
    Python's [is] compares). *)
Record instance := Instance {
  instance_of : impl;
  object_id : nat;
}.

(** Module state: the [_ENGINES] dictionary, plus the allocator used by
    constructor calls. *)
Record state := State {
  _ENGINES : gmap string impl;
  next_object : nat;
}.

Definition initial : state := {| _ENGINES := ∅; next_object := 0 |}.

(** [register_engine(impl)] *)
Definition register_engine (i : impl) (σ : state) : result unit * state :=
  if decide (name i ∈ dom (_ENGINES σ)) then
    (Raise (Py.ValueError ("Engine " +:+ name i +:+ " is already registered")),
     σ)
  else
    (Ok (), {| _ENGINES := <[name i := i]> (_ENGINES σ);
               next_object := next_object σ |}).

(** [get(name)]: [engine_class()] builds a new object at every call; a
    class object is always truthy. *)
Definition get (n : string) (σ : state) : result (option instance) * state :=
  match _ENGINES σ !! n with
  | Some engine_class =>
      (Ok (Some {| instance_of := engine_class; object_id := next_object σ |}),
       {| _ENGINES := _ENGINES σ; next_object := S (next_object σ) |})
  | None => (Ok None, σ)
  end.

(** A sequence of registrations; a registration that raises leaves the
    dictionary as it was and the next one proceeds from there. *)
Definition register_all (impls : list impl) (σ : state) : state :=
  foldl (λ σ i, (register_engine i σ).2) σ impls.

(** A crash found by the engine, and the result of a session. *)
Record Crash := {
  input_path : string;
  stacktrace : string;
  reproduce_args : list string;
  crash_time : Z;
}.

(** [Result(logs, command, crashes, stats, time_executed)]; [S] is the type
    of the stats dictionary. *)
Record Result (S : Type) := {
  logs : string;
  command : list string;
  crashes : list Crash;
  stats : S;
  time_executed : Z;
}.
Arguments logs {S} _.
Arguments command {S} _.
Arguments crashes {S} _.
Arguments stats {S} _.
Arguments time_executed {S} _.

End Engine.

(* ================================================================== *)
(** * The fragment of Python's [re] used by the launcher *)
(* ================================================================== *)

Module Regex.

(** Strings are scanned as lists of characters. *)
Definition chars (s : string) : list ascii := String.list_ascii_of_string s.
Definition str (l : list ascii) : string := String.string_of_list_ascii l.

(** Character classes.  [is_space] is [\s] ([ \t\n\r\f\v]); [is_dot] is [.]
    (anything but a newline). *)
Definition is_space (c : ascii) : bool :=
  let n := nat_of_ascii c in
  bool_decide (n = 32 ∨ n = 9 ∨ n = 10 ∨ n = 13 ∨ n = 12 ∨ n = 11)%nat.

Definition is_dot (c : ascii) : bool :=
  negb (bool_decide (nat_of_ascii c = 10%nat)).

Definition not_space (c : ascii) : bool := negb (is_space c).

(** [[A-Za-z_]] *)
Definition is_alpha_ (c : ascii) : bool :=
  let n := nat_of_ascii c in
  bool_decide ((65 ≤ n ∧ n ≤ 90) ∨ (97 ≤ n ∧ n ≤ 122) ∨ n = 95)%nat.

(** Patterns: literals, one character of a class, the greedy star of a
    class, alternation, concatenation and numbered capturing groups. *)
Inductive re :=
| Lit (l : list ascii)
| Class (p : ascii → bool)
| Star (p : ascii → bool)
| Alt (r1 r2 : re)
| Seq (r1 r2 : re)
| Group (n : nat) (r : re).

(** Captured groups, most recent binding first. *)
Definition captures := list (nat * list ascii).

Definition group (n : nat) (cs : captures) : option (list ascii) :=
  snd <$> List.find (λ c, bool_decide (c.1 = n)) cs.

(** [strip_lit l s]: the rest of [s] after the literal [l], if [s] starts
    with it. *)
Fixpoint strip_lit (l s : list ascii) : option (list ascii) :=
  match l, s with
  | [], _ => Some s
  | a :: l', b :: s' => if Ascii.eqb a b then strip_lit l' s' else None
  | _ :: _, [] => None
  end.

(** Greedy star with backtracking: take as many characters of the class as
    possible, and give characters back one at a time while the rest of the
    pattern fails. *)
Fixpoint star {R} (p : ascii → bool) (s : list ascii)
    (k : list ascii → option R) : option R :=
  match s with
  | c :: s' =>
      if p c then
        match star p s' k with
        | Some r => Some r
        | None => k s
        end
      else k s
  | [] => k []
  end.

(** Backtracking matcher in continuation-passing style: [k] is the rest of
    the pattern, applied to the unread input and the groups so far. *)
Fixpoint run (r : re) (s : list ascii) (cs : captures)
    (k : list ascii → captures → option captures) : option captures :=
  match r with
  | Lit l =>
      match strip_lit l s with
      | Some s' => k s' cs
      | None => None
      end
  | Class p =>
      match s with
      | c :: s' => if p c then k s' cs else None
      | [] => None
      end
  | Star p => star p s (λ s', k s' cs)
  | Alt r1 r2 =>
      match run r1 s cs k with
      | Some x => Some x
      | None => run r2 s cs k
      end
  | Seq r1 r2 => run r1 s cs (λ s' cs', run r2 s' cs' k)
  | Group n r1 =>
      run r1 s cs
        (λ s' cs', k s' ((n, take (length s - length s') s) :: cs'))
  end.

(** The literal [l] occurs somewhere in [s]. *)
Fixpoint contains (l s : list ascii) : bool :=
  match strip_lit l s with
  | Some _ => true
  | None =>
      match s with
      | [] => false
      | _ :: s' => contains l s'
      end
  end.

(** [re.match(pattern, line)]: anchored at the start of [line] only. *)
Definition re_match (r : re) (line : string) : option captures :=
  run r (chars line) [] (λ _ cs, Some cs).

(** [match.group(n)] of a successful match. *)
Definition match_group (n : nat) (m : captures) : string :=
  str (default [] (group n m)).

Fixpoint seq_of (rs : list re) : re :=
  match rs with
  | [] => Lit []
  | [r] => r
  | r :: rs' => Seq r (seq_of rs')
  end.

End Regex.

(* ================================================================== *)
(** * Files *)
(* ================================================================== *)

Module Shell.

(** A directory is a flat finite map from base names to file contents; a
    file system maps directory paths to directories. *)
Abbreviation directory := (gmap string string).
Abbreviation filesystem := (gmap string (gmap string string)).

(** [os.path.join(directory, name)] for a relative [name]. *)
Definition join (d name : string) : string := d +:+ "/" +:+ name.

(** The directory found at a path (empty when there is none). *)
Definition ls (fs : filesystem) (d : string) : directory := default ∅ (fs !! d).

(** [shell.get_directory_file_count(directory)] *)
Definition get_directory_file_count (fs : filesystem) (d : string) : Z :=
  Z.of_nat (size (ls fs d)).

(** A file exists at [path]. *)
Definition file_at (fs : filesystem) (path : string) : Prop :=
  ∃ d name, path = join d name ∧ is_Some (ls fs d !! name).

End Shell.

(* ================================================================== *)
(** * bot/fuzzers/libFuzzer/constants.py *)
(* ================================================================== *)

Module Constants.

Definition ARTIFACT_PREFIX_FLAG : string := "-artifact_prefix=".
Definition COLLECT_DATA_FLOW_FLAG : string := "-collect_data_flow=".
Definition DICT_FLAG : string := "-dict=".
Definition FORK_FLAG : string := "-fork=".
Definition MAX_LEN_FLAG : string := "-max_len=".
Definition MAX_TOTAL_TIME_FLAG : string := "-max_total_time=".
Definition RUNS_FLAG : string := "-runs=".
Definition TIMEOUT_FLAG : string := "-timeout=".
Definition EXACT_ARTIFACT_PATH_FLAG : string := "-exact_artifact_path=".
Definition MERGE_ARGUMENT : string := "-merge=1".
Definition MINIMIZE_CRASH_ARGUMENT : string := "-minimize_crash=1".
Definition PRINT_FINAL_STATS_ARGUMENT : string := "-print_final_stats=1".

End Constants.

(* ================================================================== *)
(** * bot/fuzzers/libFuzzer/launcher.py *)
(* ================================================================== *)

Module Launcher.
Import Regex Shell.

(** Values of the stats dictionary: integers, and the one float
    ([fuzzing_time_percent]) kept as an unevaluated quotient. *)
Inductive stat_value :=
| IntStat (z : Z)
| FloatStat (num den : Z).

Abbreviation stats := (gmap string stat_value).

(** [CRASH_TESTCASE_REGEX]: any characters, the literal
    "Test unit written to", any white space, then group 1: any characters,
    one of crash, oom, timeout, leak (group 2), a dash, any characters. *)
Definition crash_path_group : re :=
  Group 1 (seq_of [
    Star is_dot;
    Group 2 (Alt (Lit (chars "crash"))
            (Alt (Lit (chars "oom"))
            (Alt (Lit (chars "timeout"))
                 (Lit (chars "leak")))));
    Lit (chars "-");
    Star is_dot ]).

Definition CRASH_TESTCASE_REGEX : re :=
  seq_of [
    Star is_dot;
    Lit (chars "Test unit written to");
    Star is_space;
    crash_path_group
  ].

(** [DEFAULT_MERGE_TIMEOUT = 30 * 60] *)
Definition DEFAULT_MERGE_TIMEOUT : Z := 30 * 60.

(** [stats_regex]: the literal "stat::", group 1: one or more of
    A-Z, a-z and underscore, a colon, any white space, group 2: one or more
    characters that are not white space. *)
Definition stats_regex : re :=
  seq_of [
    Lit (chars "stat::");
    Group 1 (Seq (Class is_alpha_) (Star is_alpha_));
    Lit (chars ":");
    Star is_space;
    Group 2 (Seq (Class not_space) (Star not_space))
  ].

(** One iteration of the loop of [parse_log_stats]. *)
Definition parse_log_line (log_stats : gmap string Z) (line : string)
    : gmap string Z :=
  match re_match stats_regex line with
  | None => log_stats
  | Some m =>
      let value := match_group 2 m in
      if Py.isdigit value then
        <[match_group 1 m := Py.digits_value (chars value)]> log_stats
      else log_stats
  end.

(** [parse_log_stats(log_lines)] *)
Definition parse_log_stats (log_lines : list string) : gmap string Z :=
  let log_stats := foldl parse_log_line ∅ log_lines in
  match log_stats !! "new_units_added" with
  | Some v => <["new_units_generated" := v]> log_stats
  | None => log_stats
  end.

(** [HEXDIGITS_SET = set(string.hexdigits)] *)
Definition HEXDIGITS_SET : list ascii := chars "0123456789abcdefABCDEF".

(** [is_sha1_hash(possible_hash)] *)
Definition is_sha1_hash (possible_hash : string) : bool :=
  if decide (String.length possible_hash ≠ 40%nat) then false
  else forallb (λ char, bool_decide (char ∈ HEXDIGITS_SET)) (chars possible_hash).

(** The test of the loop of [move_mergeable_units]:
    [unit_name in initial_units and is_sha1_hash(unit_name)]. *)
Definition skipped (initial_units : gset string) (unit_name : string) : bool :=
  bool_decide (unit_name ∈ initial_units) && is_sha1_hash unit_name.

(** The body of the loop of [move_mergeable_units]: [unit] is a file of the
    merge directory, the state is the pair of the merge directory and the
    corpus directory. *)
Definition move_unit (initial_units : gset string)
    (dirs : directory * directory) (unit : string * string)
    : directory * directory :=
  let unit_name := unit.1 in
  if skipped initial_units unit_name then dirs
  else (delete unit_name dirs.1, <[unit_name := unit.2]> dirs.2).

(** [move_mergeable_units(merge_directory, corpus_directory)], on the
    contents of the two directories. *)
Definition move_mergeable_units (merge_directory corpus_directory : directory)
    : directory * directory :=
  let initial_units := dom corpus_directory in
  foldl (move_unit initial_units) (merge_directory, corpus_directory)
        (map_to_list merge_directory).

(** The same on paths of a file system. *)
Definition move_mergeable_units_at (merge_directory corpus_directory : string)
    (fs : filesystem) : filesystem :=
  let moved :=
    move_mergeable_units (ls fs merge_directory) (ls fs corpus_directory) in
  <[corpus_directory := moved.2]> (<[merge_directory := moved.1]> fs).

End Launcher.

(* ================================================================== *)
(** * bot/fuzzers/engine_common.py *)
(* ================================================================== *)

Module EngineCommon.
Import Shell.

(** [POSTPROCESSING_TIME = 30.0] and [MAX_FILES_FOR_UNPACK = 5] *)
Definition POSTPROCESSING_TIME : Z := 30.
Definition MAX_FILES_FOR_UNPACK : Z := 5.

(** The timeout overrides read from the environment
    ([environment.get_value] gives [None] for an unset variable).  Seconds
    are integers here. *)
Record environment := {
  HARD_TIMEOUT_OVERRIDE : option Z;
  MERGE_TIMEOUT_OVERRIDE : option Z;
  MUTATIONS_TIMEOUT_OVERRIDE : option Z;
  DICTIONARY_TIMEOUT_OVERRIDE : option Z;
}.

(** [get_overridable_timeout(default_timeout, override_env_var)];
    [timeout_override or default_timeout] takes the default for an unset or
    zero override. *)
Definition get_overridable_timeout (default_timeout : Z)
    (timeout_override : option Z) : result Z :=
  let timeout :=
    match timeout_override with
    | Some v => if decide (v = 0) then default_timeout else v
    | None => default_timeout
    end in
  if decide (timeout >= 0) then Ok timeout else Raise Py.AssertionError.

(** [get_hard_timeout(total_timeout)] with [total_timeout] given. *)
Definition get_hard_timeout (env : environment) (total_timeout : Z) : result Z :=
  let hard_timeout := total_timeout - POSTPROCESSING_TIME in
  get_overridable_timeout hard_timeout (HARD_TIMEOUT_OVERRIDE env).

(** [get_merge_timeout(default_merge_timeout)] *)
Definition get_merge_timeout (env : environment) (default_merge_timeout : Z)
    : result Z :=
  get_overridable_timeout default_merge_timeout (MERGE_TIMEOUT_OVERRIDE env).

(** [get_new_testcase_mutations_timeout()] *)
Definition get_new_testcase_mutations_timeout (env : environment) : result Z :=
  get_overridable_timeout (10 * 60) (MUTATIONS_TIMEOUT_OVERRIDE env).

(** [recreate_directory(directory_path)]: the directory exists and is empty
    afterwards. *)
Definition recreate_directory (directory_path : string) (fs : filesystem)
    : filesystem :=
  <[directory_path := ∅]> fs.

(** An entry yielded by [archive.iterator]: [handle] stands for the bytes
    read from the entry's file handle. *)
Record seed_corpus_file := {
  name : string;
  size : Z;
  handle : string;
}.

(** [max_bytes]: [None] is the default [float('inf')]. *)
Definition larger_than (size : Z) (max_bytes : option Z) : bool :=
  match max_bytes with
  | Some m => bool_decide (size > m)
  | None => false
  end.

(** The body of the loop of [unpack_seed_corpus_if_needed]; the state is
    [idx] and the corpus directory. *)
Definition unpack_entry (max_bytes : option Z) (st : Z * directory)
    (seed_corpus_file : seed_corpus_file) : Z * directory :=
  let idx := st.1 in
  if Py.endswith (name seed_corpus_file) "/" then st
  else if larger_than (size seed_corpus_file) max_bytes then st
  else
    let output_filename := Py.fmt_0d 16 idx in
    (idx + 1, <[output_filename := handle seed_corpus_file]> st.2).

(** [unpack_seed_corpus_if_needed]: [seed_corpus_archive] is what
    [get_seed_corpus_path] finds, already opened by [archive.iterator]
    ([None] when the target has no seed corpus). *)
Definition unpack_seed_corpus_if_needed
    (seed_corpus_archive : option (list seed_corpus_file))
    (corpus_directory : directory)
    (max_bytes : option Z) (force_unpack : bool) (max_files_for_unpack : Z)
    : directory :=
  match seed_corpus_archive with
  | None => corpus_directory
  | Some archive_iterator =>
      let num_corpus_files := Z.of_nat (base.size corpus_directory) in
      if negb force_unpack
         && bool_decide (num_corpus_files > max_files_for_unpack)
      then corpus_directory
      else (foldl (unpack_entry max_bytes) (0, corpus_directory)
                  archive_iterator).2
  end.

End EngineCommon.

(* ================================================================== *)
(** * bot/fuzzers/libfuzzer.py *)
(* ================================================================== *)

Module LibFuzzerCommon.
Import Shell Constants.

(** [new_process.ProcessResult] *)
Record ProcessResult := {
  return_code : Z;
  timed_out : bool;
  output : string;
  time_executed : Z;
  command : list string;
}.

(** [run_and_wait(additional_args, timeout)] of a runner: the child
    process is an arbitrary function of its command line, its time budget
    and the files it finds. *)
Definition runner : Type :=
  list string → Z → filesystem → ProcessResult * filesystem.

Definition LIBFUZZER_CLEAN_EXIT_TIME : Z := 10.
Definition LIBFUZZER_FORK_MODE_CLEAN_EXIT_TIME : Z := 100.
Definition SIGTERM_WAIT_TIME : Z := 10.

(** [get_max_total_time(timeout)] *)
Definition get_max_total_time (timeout : Z) : Z :=
  timeout - LIBFUZZER_CLEAN_EXIT_TIME - SIGTERM_WAIT_TIME.

(** [fuzz(corpus_directories, fuzz_timeout, additional_args=...)]
    ([artifact_prefix] is not passed by the engine) *)
Definition fuzz (run_and_wait : runner) (corpus_directories : list string)
    (fuzz_timeout : Z) (additional_args : list string) (fs : filesystem)
    : result (ProcessResult * filesystem) :=
  let max_total_time := get_max_total_time fuzz_timeout in
  let max_total_time :=
    if existsb (λ arg, Py.startswith arg FORK_FLAG) additional_args
    then max_total_time - LIBFUZZER_FORK_MODE_CLEAN_EXIT_TIME
    else max_total_time in
  if decide (max_total_time > 0) then
    let additional_args :=
      additional_args
      ++ [MAX_TOTAL_TIME_FLAG +:+ Py.fmt_d max_total_time;
          PRINT_FINAL_STATS_ARGUMENT]
      ++ corpus_directories in
    Ok (run_and_wait additional_args (fuzz_timeout - SIGTERM_WAIT_TIME) fs)
  else Raise Py.AssertionError.

(** [merge(corpus_directories, merge_timeout, tmp_dir=..., additional_args=...)] *)
Definition merge (run_and_wait : runner) (corpus_directories : list string)
    (merge_timeout : Z) (additional_args : list string) (fs : filesystem)
    : ProcessResult * filesystem :=
  let additional_args :=
    additional_args ++ [MERGE_ARGUMENT] ++ corpus_directories in
  run_and_wait additional_args merge_timeout fs.

(** [minimize_crash(testcase_path, output_path, timeout, additional_args)] *)
Definition minimize_crash (run_and_wait : runner)
    (testcase_path output_path : string) (timeout : Z)
    (additional_args : list string) (fs : filesystem)
    : result (ProcessResult * filesystem) :=
  let max_total_time := (timeout - LIBFUZZER_CLEAN_EXIT_TIME) `div` 2 in
  if decide (max_total_time > 0) then
    let max_total_time_argument :=
      MAX_TOTAL_TIME_FLAG +:+ Py.fmt_d max_total_time in
    let additional_args :=
      additional_args
      ++ [MINIMIZE_CRASH_ARGUMENT; max_total_time_argument;
          EXACT_ARTIFACT_PATH_FLAG +:+ output_path; testcase_path] in
    Ok (run_and_wait additional_args timeout fs)
  else Raise Py.AssertionError.

End LibFuzzerCommon.

(* ================================================================== *)
(** * bot/fuzzers/libFuzzer/engine.py *)
(* ================================================================== *)

Module LibFuzzerEngine.
Import Shell Constants Regex Launcher LibFuzzerCommon.

(** [LibFuzzerOptions] *)
Record LibFuzzerOptions := {
  corpus_dir : string;
  arguments : list string;
  strategies : list string;
  fuzz_corpus_dirs : list string;
  use_dataflow_tracing : bool;
  is_mutations_run : bool;
}.

(** [dict.update]: the entries of [other] win. *)
Definition update (d other : stats) : stats := other ∪ d.

(** [_artifact_prefix(prefix)] *)
Definition _artifact_prefix (prefix : string) : string :=
  ARTIFACT_PREFIX_FLAG +:+ prefix +:+ "/".

(** The first line of the log that matches [CRASH_TESTCASE_REGEX], as in
    the loop of [fuzz] that breaks at the first match. *)
Fixpoint find_crash_testcase_file_path (log_lines : list string)
    : option string :=
  match log_lines with
  | [] => None
  | line :: rest =>
      match re_match CRASH_TESTCASE_REGEX line with
      | Some m => Some (match_group 1 m)
      | None => find_crash_testcase_file_path rest
      end
  end.

Section engine.

(** The collaborators that are not part of the sources:
    [fuzzer_utils.get_temp_dir()], the runner chosen by
    [libfuzzer.get_runner], the environment, [fuzzer_utils.extract_argument]
    (with its [remove] flag; it returns the value and the argument list it
    leaves), and the two parsers of the [stats] module. *)
Variable temp_dir : string.
Variable run_and_wait : runner.
Variable env : EngineCommon.environment.
Variable extract_argument :
  list string → string → bool → option string * list string.
Variable parse_performance_features :
  list string → list string → list string → stats.
Variable parse_stats_from_merge_log : list string → stats.

(** [launcher.get_dictionary_analysis_timeout()] *)
Definition get_dictionary_analysis_timeout : result Z :=
  EngineCommon.get_overridable_timeout (5 * 60)
    (EngineCommon.DICTIONARY_TIMEOUT_OVERRIDE env).

(** [launcher.get_fuzz_timeout(is_mutations_run, total_timeout)] *)
Definition get_fuzz_timeout (is_mutations_run : bool) (total_timeout : Z)
    : result Z :=
  hard ← EngineCommon.get_hard_timeout env total_timeout;
  merge ← EngineCommon.get_merge_timeout env DEFAULT_MERGE_TIMEOUT;
  dict ← get_dictionary_analysis_timeout;
  let fuzz_timeout := hard - merge - dict in
  if is_mutations_run then
    mutations ← EngineCommon.get_new_testcase_mutations_timeout env;
    Ok (fuzz_timeout - mutations)
  else Ok fuzz_timeout.

(** [launcher.remove_fuzzing_arguments(arguments)] *)
Definition remove_fuzzing_arguments (arguments : list string) : list string :=
  foldl (λ arguments argument, (extract_argument arguments argument true).2)
        arguments
        [DICT_FLAG; MAX_LEN_FLAG; RUNS_FLAG; FORK_FLAG; COLLECT_DATA_FLOW_FLAG].

(** [_create_temp_corpus_dir(name)] *)
Definition _create_temp_corpus_dir (name : string) (fs : filesystem)
    : string * filesystem :=
  let new_corpus_directory := join temp_dir name in
  (new_corpus_directory,
   EngineCommon.recreate_directory new_corpus_directory fs).

(** [minimize_corpus(target_path, arguments, output_dir, input_dirs,
    max_time)]; the file system is returned on both outcomes. *)
Definition minimize_corpus (arguments : list string) (output_dir : string)
    (input_dirs : list string) (max_time : Z) (fs : filesystem)
    : result (Engine.Result stats) * filesystem :=
  let '(merge_tmp_dir, fs) := _create_temp_corpus_dir "merge-workdir" fs in
  let '(merge_result, fs) :=
    merge run_and_wait ([output_dir] ++ input_dirs) max_time arguments fs in
  if timed_out merge_result then
    (Raise (Py.MergeError "Merging new testcases timed out"), fs)
  else if decide (return_code merge_result ≠ 0) then
    (Raise (Py.MergeError "Merging new testcases failed"), fs)
  else
    (Ok {| Engine.logs := output merge_result;
           Engine.command := command merge_result;
           Engine.crashes := [];
           Engine.stats := ∅;
           Engine.time_executed := time_executed merge_result |},
     fs).

(** [_merge_new_units(target_path, corpus_dir, new_corpus_dir,
    fuzz_corpus_dirs, arguments, stat_overrides)]: returns the updated
    [stat_overrides]. *)
Definition _merge_new_units (corpus_dir new_corpus_dir : string)
    (fuzz_corpus_dirs arguments : list string) (stat_overrides : stats)
    (fs : filesystem) : result (stats * filesystem) :=
  let new_units_added := get_directory_file_count fs new_corpus_dir in
  if decide (new_units_added = 0) then
    Ok (<["new_units_added" := IntStat 0]> stat_overrides, fs)
  else
    let '(merge_corpus, fs) := _create_temp_corpus_dir "merge-corpus" fs in
    let merge_dirs := [new_corpus_dir] ++ fuzz_corpus_dirs in
    let merge_dirs :=
      if decide (corpus_dir ∈ merge_dirs) then merge_dirs
      else merge_dirs ++ [corpus_dir] in
    let old_corpus_len := get_directory_file_count fs corpus_dir in
    max_time ← EngineCommon.get_merge_timeout env DEFAULT_MERGE_TIMEOUT;
    match minimize_corpus arguments merge_corpus merge_dirs max_time fs with
    | (Ok result, fs) =>
        let fs := move_mergeable_units_at merge_corpus corpus_dir fs in
        let new_corpus_len := get_directory_file_count fs corpus_dir in
        let new_units_added := new_corpus_len - old_corpus_len in
        let stat_overrides :=
          if decide (Engine.logs result ≠ "") then
            update stat_overrides
              (parse_stats_from_merge_log (Py.splitlines (Engine.logs result)))
          else stat_overrides in
        Ok (<["new_units_added" := IntStat new_units_added]> stat_overrides,
            fs)
    | (Raise (Py.MergeError _), fs) =>
        Ok (<["new_units_added" := IntStat 0]> stat_overrides, fs)
    | (Raise e, _) => Raise e
    end.

(** [fuzz(target_path, options, reproducers_dir, max_time)];
    [reproducers_dir] is an absolute path. *)
Definition fuzz (options : LibFuzzerOptions) (reproducers_dir : string)
    (max_time : Z) (fs : filesystem)
    : result (Engine.Result stats * filesystem) :=
  let artifact_prefix := _artifact_prefix reproducers_dir in
  let '(new_corpus_dir, fs) := _create_temp_corpus_dir "new" fs in
  let corpus_directories := [new_corpus_dir] ++ fuzz_corpus_dirs options in
  fuzz_timeout ← get_fuzz_timeout (is_mutations_run options) max_time;
  '(fuzz_result, fs) ←
    LibFuzzerCommon.fuzz run_and_wait corpus_directories fuzz_timeout
      (arguments options ++ [artifact_prefix]) fs;
  let log_lines := Py.splitlines (output fuzz_result) in
  let crash_testcase_file_path := find_crash_testcase_file_path log_lines in
  let parsed_stats : stats := IntStat <$> parse_log_stats log_lines in
  let parsed_stats :=
    update parsed_stats
      (parse_performance_features log_lines (strategies options)
         (arguments options)) in
  let timeout_limit :=
    (extract_argument (arguments options) TIMEOUT_FLAG false).1 in
  let expected_duration := get_max_total_time fuzz_timeout in
  let actual_duration := time_executed fuzz_result in
  if decide (expected_duration = 0) then Raise Py.ZeroDivisionError else
  timeout_limit ←
    match timeout_limit with
    | Some v => Py.int v
    | None => Raise Py.TypeError
    end;
  let parsed_stats :=
    update parsed_stats
      (<["timeout_limit" := IntStat timeout_limit]>
       (<["expected_duration" := IntStat expected_duration]>
       (<["actual_duration" := IntStat actual_duration]>
       (<["fuzzing_time_percent" :=
            FloatStat (100 * actual_duration) expected_duration]> ∅)))) in
  let arguments := remove_fuzzing_arguments (arguments options) in
  '(parsed_stats, fs) ←
    _merge_new_units (corpus_dir options) new_corpus_dir
      (fuzz_corpus_dirs options) arguments parsed_stats fs;
  let fuzz_logs := Py.join_lines log_lines in
  let crashes :=
    match crash_testcase_file_path with
    | Some path =>
        if decide (path ≠ "") then
          [ {| Engine.input_path := path;
               Engine.stacktrace := fuzz_logs;
               Engine.reproduce_args := arguments;
               Engine.crash_time := actual_duration |} ]
        else []
    | None => []
    end in
  Ok ({| Engine.logs := fuzz_logs;
         Engine.command := command fuzz_result;
         Engine.crashes := crashes;
         Engine.stats := parsed_stats;
         Engine.time_executed := time_executed fuzz_result |}, fs).

(** [minimize_testcase(target_path, arguments, input_path, output_path,
    max_time)] *)
Definition minimize_testcase (arguments : list string)
    (input_path output_path : string) (max_time : Z) (fs : filesystem)
    : result (bool * filesystem) :=
  let '(minimize_tmp_dir, fs) :=
    _create_temp_corpus_dir "minimize-workdir" fs in
  let artifact_prefix := _artifact_prefix minimize_tmp_dir in
  '(result, fs) ←
    minimize_crash run_and_wait input_path output_path max_time
      (arguments ++ [artifact_prefix]) fs;
  Ok (bool_decide (return_code result = 0), fs).

End engine.
End LibFuzzerEngine.

(* ================================================================== *)
(** * bot/tasks/progression_task.py *)
(* ================================================================== *)

Module Progression.

(** ** The datastore entity *)

(** Values kept in a testcase's metadata dictionary. *)
Inductive value :=
| VInt (z : Z)
| VBool (b : bool)
| VTime (t : Z).

(** Python truthiness of what [get_metadata] returns ([None] when the key
    is absent). *)
Definition truthy (v : option value) : bool :=
  match v with
  | Some (VInt z) => bool_decide (z ≠ 0)
  | Some (VBool b) => b
  | Some (VTime _) => true
  | None => false
  end.

(** The integer held under a revision key. *)
Definition as_int (v : option value) : option Z :=
  match v with
  | Some (VInt z) => Some z
  | _ => None
  end.

(** [data_types.Testcase], with the fields of the persisted state. *)
Record Testcase := {
  key_id : Z;
  job_type : string;
  crash_type : string;
  crash_state : string;
  security_flag : bool;
  one_time_crasher_flag : bool;
  bug_information : string;
  group_id : Z;
  regression : string;
  crash_revision : Z;
  http_flag : bool;
  fixed : string;
  open : bool;
  last_tested_crash_stacktrace : string;
  comments : list string;
  metadata : gmap string value;
}.

Definition with_fixed (v : string) (t : Testcase) : Testcase :=
  {| key_id := key_id t; job_type := job_type t; crash_type := crash_type t;
     crash_state := crash_state t; security_flag := security_flag t;
     one_time_crasher_flag := one_time_crasher_flag t;
     bug_information := bug_information t; group_id := group_id t;
     regression := regression t; crash_revision := crash_revision t;
     http_flag := http_flag t; fixed := v; open := open t;
     last_tested_crash_stacktrace := last_tested_crash_stacktrace t;
     comments := comments t; metadata := metadata t |}.

Definition with_open (v : bool) (t : Testcase) : Testcase :=
  {| key_id := key_id t; job_type := job_type t; crash_type := crash_type t;
     crash_state := crash_state t; security_flag := security_flag t;
     one_time_crasher_flag := one_time_crasher_flag t;
     bug_information := bug_information t; group_id := group_id t;
     regression := regression t; crash_revision := crash_revision t;
     http_flag := http_flag t; fixed := fixed t; open := v;
     last_tested_crash_stacktrace := last_tested_crash_stacktrace t;
     comments := comments t; metadata := metadata t |}.

Definition with_last_tested_crash_stacktrace (v : string) (t : Testcase)
    : Testcase :=
  {| key_id := key_id t; job_type := job_type t; crash_type := crash_type t;
     crash_state := crash_state t; security_flag := security_flag t;
     one_time_crasher_flag := one_time_crasher_flag t;
     bug_information := bug_information t; group_id := group_id t;
     regression := regression t; crash_revision := crash_revision t;
     http_flag := http_flag t; fixed := fixed t; open := open t;
     last_tested_crash_stacktrace := v;
     comments := comments t; metadata := metadata t |}.

Definition with_comments (v : list string) (t : Testcase) : Testcase :=
  {| key_id := key_id t; job_type := job_type t; crash_type := crash_type t;
     crash_state := crash_state t; security_flag := security_flag t;
     one_time_crasher_flag := one_time_crasher_flag t;
     bug_information := bug_information t; group_id := group_id t;
     regression := regression t; crash_revision := crash_revision t;
     http_flag := http_flag t; fixed := fixed t; open := open t;
     last_tested_crash_stacktrace := last_tested_crash_stacktrace t;
     comments := v; metadata := metadata t |}.

Definition with_metadata (v : gmap string value) (t : Testcase) : Testcase :=
  {| key_id := key_id t; job_type := job_type t; crash_type := crash_type t;
     crash_state := crash_state t; security_flag := security_flag t;
     one_time_crasher_flag := one_time_crasher_flag t;
     bug_information := bug_information t; group_id := group_id t;
     regression := regression t; crash_revision := crash_revision t;
     http_flag := http_flag t; fixed := fixed t; open := open t;
     last_tested_crash_stacktrace := last_tested_crash_stacktrace t;
     comments := comments t; metadata := v |}.

(** [data_types.TaskState] *)
Inductive TaskState := STARTED | WIP | ERROR | FINISHED.

Definition TaskState_name (s : TaskState) : string :=
  match s with
  | STARTED => "Started"
  | WIP => "In-progress"
  | ERROR => "Error"
  | FINISHED => "Finished"
  end.

(** ** The world outside the task *)

(** What the task does to its collaborators, in order. *)
Inductive event :=
| Log (msg : string)
| LogError (msg : string)
| AddTask (command : string) (testcase_id : Z) (job : string)
    (wait_time : option Z)
| SetupBuild (revision : option Z)
| TestForCrash (revision : Z)
| WriteRange (table_id : string) (testcase_id : Z) (range_name : string)
    (range_start range_end : Z)
| SaveCrashInfo (testcase_id revision : Z)
| SetValue (key : string) (v : bool).

(** The datastore and the trace of effects. *)
Record world := {
  db : gmap Z Testcase;
  events : list event;
}.

(** Stateful computations that may raise; the effects made before an
    exception stay. *)
Definition M (A : Type) : Type := world → result A * world.

Definition ret {A} (a : A) : M A := λ w, (Ok a, w).

Definition raise {A} (e : Py.exn) : M A := λ w, (Raise e, w).

Definition bind {A B} (m : M A) (k : A → M B) : M B :=
  λ w, match m w with
       | (Ok a, w') => k a w'
       | (Raise e, w') => (Raise e, w')
       end.

Notation "x <- m ;; k" := (bind m (λ x, k))
  (at level 100, m at next level, right associativity,
   format "'[v' x  <-  m  ;;  '/' k ']'").
Notation "m ;;; k" := (bind m (λ _, k))
  (at level 100, right associativity,
   format "'[v' m  ;;;  '/' k ']'").

Definition lift {A} (r : result A) : M A := λ w, (r, w).

(** What holds of the value and the world when a computation returns
    normally from [w]. *)
Definition wp {A} (m : M A) (Q : A → world → Prop) (w : world) : Prop :=
  match m w with
  | (Ok a, w') => Q a w'
  | (Raise _, _) => True
  end.

Definition emit (e : event) : M unit :=
  λ w, (Ok (), {| db := db w; events := events w ++ [e] |}).

(** [testcase.put()] *)
Definition put (t : Testcase) : M unit :=
  λ w, (Ok (), {| db := <[key_id t := t]> (db w); events := events w |}).

(** [data_handler.get_testcase_by_id(testcase_id)]: [None] when there is no
    such entity. *)
Definition get_testcase_by_id (testcase_id : Z) : M (option Testcase) :=
  λ w, (Ok (db w !! testcase_id), w).

(** A re-fetch of the entity in the middle of the task; using a missing
    entity raises. *)
Definition fetch (testcase_id : Z) : M Testcase :=
  o <- get_testcase_by_id testcase_id ;;
  match o with
  | Some t => ret t
  | None => raise Py.AttributeError
  end.

(** [testcase.get_metadata(key)] *)
Definition get_metadata (t : Testcase) (key : string) : option value :=
  metadata t !! key.

(** [testcase.set_metadata(key, value, update_testcase)]; the updated
    object is returned. *)
Definition set_metadata (t : Testcase) (key : string) (v : value)
    (update_testcase : bool) : M Testcase :=
  let t := with_metadata (<[key := v]> (metadata t)) t in
  if update_testcase then put t ;;; ret t else ret t.

(** [testcase.delete_metadata(key, update_testcase)] *)
Definition delete_metadata (t : Testcase) (key : string)
    (update_testcase : bool) : M Testcase :=
  let t := with_metadata (delete key (metadata t)) t in
  if update_testcase then put t ;;; ret t else ret t.

(** Modelled from the spec: [data_handler.update_testcase_comment] is not
    among the sources.  User-visible progress is expressed by updating the
    testcase comment: the task state and the message are appended to the
    comments and the entity is written back. *)
Definition update_testcase_comment (t : Testcase) (task_state : TaskState)
    (message : option string) : M Testcase :=
  let line := TaskState_name task_state +:+ ": " +:+ default "" message in
  let t := with_comments (comments t ++ [line]) t in
  put t ;;; ret t.

(** Modelled from the spec: [data_handler.is_first_retry_for_task] is not
    among the sources.  The first failure of a task is remembered on the
    testcase (metadata key [progression_retry]) and answers [True]; the
    next one answers [False] and, with [reset_after_retry], forgets the
    mark. *)
Definition is_first_retry_for_task (t : Testcase) (reset_after_retry : bool)
    : M (bool * Testcase) :=
  if truthy (get_metadata t "progression_retry") then
    if reset_after_retry then
      t <- set_metadata t "progression_retry" (VBool false) true ;;
      ret (false, t)
    else ret (false, t)
  else
    t <- set_metadata t "progression_retry" (VBool true) true ;;
    ret (true, t).

(** Modelled from the spec: [task_creation.mark_unreproducible_if_flaky] is
    not among the sources.  It records on the testcase whether the case is
    potentially flaky (metadata key [potentially_flaky]). *)
Definition mark_unreproducible_if_flaky (t : Testcase)
    (potentially_flaky : bool) : M Testcase :=
  set_metadata t "potentially_flaky" (VBool potentially_flaky) true.

(** Modelled from the spec: the [revisions] module is not among the
    sources.  [find_min_revision_index] and [find_max_revision_index] give
    the index of the revision in the list ([None] when it is not there), and
    [get_last_revision_in_list] the last revision. *)
Fixpoint find_revision_index (revision_list : list Z) (revision : Z)
    : option Z :=
  match revision_list with
  | [] => None
  | r :: rest =>
      if decide (r = revision) then Some 0
      else Z.succ <$> find_revision_index rest revision
  end.

Definition find_min_revision_index := find_revision_index.
Definition find_max_revision_index := find_revision_index.

Definition get_last_revision_in_list (revision_list : list Z) : Z :=
  default 0 (last revision_list).

(** ** The task *)

(** What [testcase_manager.test_for_crash_with_retries] returns:
    [crash_stacktrace] is the filtered output of
    [utils.get_crash_stacktrace_output] for this result. *)
Record CrashResult := {
  is_crash : bool;
  crash_stacktrace : string;
}.

(** Which [return] of [find_fixed_range] was reached; [Fixed] carries the
    values of [min_revision], [max_revision], [revision_list], [min_index]
    and [max_index] at the call of [_save_fixed_range]. *)
Inductive outcome :=
| NoTestcase
| AlreadyFixed
| SetupFailed
| CustomBuildFailed
| CustomStillCrashes
| CustomRetry
| CustomFixed
| NoRevisionList
| StillCrashes
| MinRetry
| MinFlaky
| Fixed (min_revision max_revision : Z) (revision_list : list Z)
    (min_index max_index : Z)
| TimedOut.

Section task.

(** The collaborators of the task that are not part of the sources:
    the clock ([utils.utcnow()], and the number of times
    [time.time() < deadline] holds before the deadline passes), the
    environment values [FAIL_WAIT] and [APP_REVISION],
    what [setup.setup_testcase] returns for the testcase (the testcase
    file path, [None] for an empty file list),
    [build_manager.is_custom_binary], what [get_revisions_list] returns for
    the job, whether [build_manager.setup_build] leaves [APP_PATH] set,
    [testcase_manager.check_for_bad_build] and
    [testcase_manager.test_for_crash_with_retries] on the build that is set
    up (deterministic: a function of the revision). *)
Variable now : Z.
Variable iterations_before_deadline : nat.
Variable FAIL_WAIT : option Z.
Variable APP_REVISION : Z.
Variable setup_testcase : option string.
Variable is_custom_binary : bool.
Variable get_revisions_list : list Z.
Variable app_path_set : option Z → bool.
Variable check_for_bad_build : Z → bool.
Variable test_for_crash_with_retries : Z → CrashResult.
Variable custom_binary_result : CrashResult.

(** [_write_to_bigquery(testcase, start, end)] *)
Definition _write_to_bigquery (t : Testcase)
    (progression_range_start progression_range_end : Z) : M unit :=
  emit (WriteRange "fixeds" (key_id t) "fixed"
          progression_range_start progression_range_end).

(** [_clear_progression_pending(testcase)] *)
Definition _clear_progression_pending (t : Testcase) : M Testcase :=
  if negb (truthy (get_metadata t "progression_pending")) then ret t
  else delete_metadata t "progression_pending" false.

(** [_update_completion_metadata(testcase, revision, is_crash, message)] *)
Definition _update_completion_metadata (t : Testcase) (revision : Z)
    (is_crash : bool) (message : option string) : M Testcase :=
  t <- _clear_progression_pending t ;;
  t <- set_metadata t "last_tested_revision" (VInt revision) false ;;
  t <- (if is_crash then
          t <- set_metadata t "last_tested_crash_revision" (VInt revision)
                 false ;;
          set_metadata t "last_tested_crash_time" (VTime now) false
        else ret t) ;;
  t <- (if negb (open t) then set_metadata t "closed_time" (VTime now) false
        else ret t) ;;
  update_testcase_comment t FINISHED message.

(** [_log_output(revision, crash_result)] *)
Definition _log_output (revision : Z) (crash_result : CrashResult) : M unit :=
  emit (Log ("Testing " +:+ Py.fmt_d revision +:+ ".")).

(** [_check_fixed_for_custom_binary(testcase, job_type, testcase_file_path)] *)
Definition _check_fixed_for_custom_binary (t : Testcase) (job : string)
    : M outcome :=
  let revision := APP_REVISION in
  let testcase_id := key_id t in
  t <- fetch testcase_id ;;
  t <- update_testcase_comment t STARTED None ;;
  emit (SetupBuild None) ;;;
  if negb (app_path_set None) then
    t <- fetch testcase_id ;;
    t <- update_testcase_comment t ERROR
           (Some "Build setup failed for custom binary") ;;
    emit (AddTask "progression" testcase_id job FAIL_WAIT) ;;;
    ret CustomBuildFailed
  else
    let result := custom_binary_result in
    emit (TestForCrash revision) ;;;
    _log_output revision result ;;;
    t <- fetch (key_id t) ;;
    if is_crash result then
      let t :=
        with_last_tested_crash_stacktrace (crash_stacktrace result) t in
      t <- _update_completion_metadata t revision true
             (Some "still crashes on latest custom build") ;;
      ret CustomStillCrashes
    else
      r <- is_first_retry_for_task t true ;;
      let t := r.2 in
      if r.1 then
        emit (AddTask "progression" testcase_id job None) ;;;
        t <- _update_completion_metadata t revision false None ;;
        ret CustomRetry
      else
        let t := with_open false (with_fixed "Yes" t) in
        t <- _update_completion_metadata t revision false
               (Some "fixed on latest custom build") ;;
        ret CustomFixed.

(** [_testcase_reproduces_in_revision(testcase, testcase_file_path,
    job_type, revision)] *)
Definition _testcase_reproduces_in_revision (t : Testcase) (revision : Z)
    : M CrashResult :=
  emit (SetupBuild (Some revision)) ;;;
  if negb (app_path_set (Some revision)) then
    raise (Py.BuildSetupError revision)
  else if check_for_bad_build revision then
    let log_message := "Bad build at r" +:+ Py.fmt_d revision +:+ ". Skipping" in
    t <- fetch (key_id t) ;;
    t <- update_testcase_comment t WIP (Some log_message) ;;
    raise (Py.BadBuildError revision)
  else
    let result := test_for_crash_with_retries revision in
    emit (TestForCrash revision) ;;;
    _log_output revision result ;;;
    ret result.

(** [_save_current_fixed_range_indices(testcase_id, start, end)] *)
Definition _save_current_fixed_range_indices (testcase_id : Z)
    (fixed_range_start fixed_range_end : Z) : M unit :=
  t <- fetch testcase_id ;;
  t <- set_metadata t "last_progression_min" (VInt fixed_range_start) false ;;
  t <- set_metadata t "last_progression_max" (VInt fixed_range_end) false ;;
  put t.

(** [_save_fixed_range(testcase_id, min_revision, max_revision)] *)
Definition _save_fixed_range (testcase_id : Z) (min_revision max_revision : Z)
    : M unit :=
  t <- fetch testcase_id ;;
  let t :=
    with_fixed (Py.fmt_d min_revision +:+ ":" +:+ Py.fmt_d max_revision) t in
  let t := with_open false t in
  t <- _update_completion_metadata t max_revision false
         (Some ("fixed in range r" +:+ fixed t)) ;;
  _write_to_bigquery t min_revision max_revision.

(** [try: ... except errors.BadBuildError:] around one call: [None] when
    the call raised [BadBuildError]. *)
Definition except_BadBuildError {A} (m : M A) : M (option A) :=
  λ w, match m w with
       | (Ok a, w') => (Ok (Some a), w')
       | (Raise (Py.BadBuildError _), w') => (Ok None, w')
       | (Raise e, w') => (Raise e, w')
       end.

(** The [while time.time() < deadline] loop of [find_fixed_range] and the
    code after it; [budget] is the number of times the loop condition still
    holds. *)
Fixpoint bisect (budget : nat) (testcase_id : Z) (job : string)
    (revision_list : list Z) (min_index max_index : Z) : M outcome :=
  match budget with
  | O =>
      t <- fetch testcase_id ;;
      lo <- lift (Py.index revision_list min_index) ;;
      hi <- lift (Py.index revision_list max_index) ;;
      let error_message :=
        "Timed out, current range r" +:+ Py.fmt_d lo +:+ ":r"
        +:+ Py.fmt_d hi in
      t <- update_testcase_comment t ERROR (Some error_message) ;;
      emit (AddTask "progression" testcase_id job None) ;;;
      ret TimedOut
  | S budget =>
      min_revision <- lift (Py.index revision_list min_index) ;;
      max_revision <- lift (Py.index revision_list max_index) ;;
      if decide (max_index - min_index = 1) then
        _save_fixed_range testcase_id min_revision max_revision ;;;
        ret (Fixed min_revision max_revision revision_list
               min_index max_index)
      else
        let middle_index := (min_index + max_index) `div` 2 in
        middle_revision <- lift (Py.index revision_list middle_index) ;;
        t <- fetch testcase_id ;;
        let log_message :=
          "Testing r" +:+ Py.fmt_d middle_revision +:+ " (current range "
          +:+ Py.fmt_d min_revision +:+ ":" +:+ Py.fmt_d max_revision
          +:+ ")" in
        t <- update_testcase_comment t WIP (Some log_message) ;;
        r <- except_BadBuildError
               (_testcase_reproduces_in_revision t middle_revision) ;;
        match r with
        | None =>
            revision_list <- lift (Py.del revision_list middle_index) ;;
            bisect budget testcase_id job revision_list
              min_index (max_index - 1)
        | Some result =>
            let min_index :=
              if is_crash result then middle_index else min_index in
            let max_index :=
              if is_crash result then max_index else middle_index in
            lo <- lift (Py.index revision_list min_index) ;;
            hi <- lift (Py.index revision_list max_index) ;;
            _save_current_fixed_range_indices testcase_id lo hi ;;;
            bisect budget testcase_id job revision_list min_index max_index
        end
  end.

(** [x or y] on a metadata value that holds a revision. *)
Definition or_else (v : option value) (otherwise : Z) : Z :=
  if truthy v then default otherwise (as_int v) else otherwise.

(** The choice of [known_crash_revision], [min_revision] and
    [max_revision] at the start of [find_fixed_range]. *)
Definition known_crash_revision_of (t : Testcase) : Z :=
  let last_tested_revision := get_metadata t "last_tested_crash_revision" in
  or_else last_tested_revision (crash_revision t).

Definition min_revision_of (t : Testcase) : Z :=
  let min_revision := get_metadata t "last_progression_min" in
  or_else min_revision (known_crash_revision_of t).

Definition max_revision_of (t : Testcase) (revision_list : list Z) : Z :=
  let max_revision := get_metadata t "last_progression_max" in
  or_else max_revision (get_last_revision_in_list revision_list).

(** [find_fixed_range(testcase_id, job_type)] *)
Definition find_fixed_range (testcase_id : Z) (job : string) : M outcome :=
  o <- get_testcase_by_id testcase_id ;;
  match o with
  | None => ret NoTestcase
  | Some t =>
  if decide (fixed t ≠ "") then
    emit (LogError ("Fixed range is already set as " +:+ fixed t
                    +:+ ", skip.")) ;;;
    ret AlreadyFixed
  else
  match setup_testcase with
  | None => ret SetupFailed
  | Some testcase_file_path =>
  t <- set_metadata t "progression_pending" (VBool true) true ;;
  if is_custom_binary then _check_fixed_for_custom_binary t job
  else
  let revision_list := get_revisions_list in
  if decide (revision_list = []) then
    t <- fetch testcase_id ;;
    t <- update_testcase_comment t ERROR (Some "Failed to fetch revision list") ;;
    emit (AddTask "progression" testcase_id job None) ;;;
    ret NoRevisionList
  else
  let known_crash_revision := known_crash_revision_of t in
  let min_revision := min_revision_of t in
  let max_revision := max_revision_of t revision_list in
  match find_min_revision_index revision_list min_revision with
  | None => raise (Py.BuildNotFoundError min_revision)
  | Some min_index =>
  match find_max_revision_index revision_list max_revision with
  | None => raise (Py.BuildNotFoundError max_revision)
  | Some max_index =>
  t <- fetch testcase_id ;;
  t <- update_testcase_comment t STARTED
         (Some ("r" +:+ Py.fmt_d max_revision)) ;;
  result <- _testcase_reproduces_in_revision t max_revision ;;
  if is_crash result then
    emit (Log ("Found crash with same signature on latest revision r"
               +:+ Py.fmt_d max_revision +:+ ".")) ;;;
    t <- fetch testcase_id ;;
    let t := with_last_tested_crash_stacktrace (crash_stacktrace result) t in
    t <- _update_completion_metadata t max_revision true
           (Some ("still crashes on latest revision r"
                  +:+ Py.fmt_d max_revision)) ;;
    t <- mark_unreproducible_if_flaky t false ;;
    emit (SaveCrashInfo testcase_id max_revision) ;;;
    ret StillCrashes
  else
  emit (SetValue "CACHE_STORE" false) ;;;
  result <- _testcase_reproduces_in_revision t min_revision ;;
  if negb (is_crash result) then
    t <- fetch testcase_id ;;
    r <- is_first_retry_for_task t true ;;
    let t := r.2 in
    if r.1 then
      emit (AddTask "progression" testcase_id job None) ;;;
      let error_message :=
        "Known crash revision " +:+ Py.fmt_d known_crash_revision
        +:+ " did not crash, will retry on another bot to confirm result" in
      t <- update_testcase_comment t ERROR (Some error_message) ;;
      t <- _update_completion_metadata t max_revision false None ;;
      ret MinRetry
    else
      t <- _clear_progression_pending t ;;
      let error_message :=
        "Known crash revision " +:+ Py.fmt_d known_crash_revision
        +:+ " did not crash" in
      t <- update_testcase_comment t ERROR (Some error_message) ;;
      t <- mark_unreproducible_if_flaky t true ;;
      ret MinFlaky
  else
  bisect iterations_before_deadline testcase_id job revision_list
    min_index max_index
  end end end end.

End task.

(** ** Predicates of the bisection theorems *)

(** The entity stored under [testcase_id] carries that id as its key. *)
Definition keyed (testcase_id : Z) (w : world) : Prop :=
  ∀ t, db w !! testcase_id = Some t → key_id t = testcase_id.

(** What the loop of [find_fixed_range] keeps true of its locals: either
    the indices are not in increasing order (and then nothing is ever
    committed), or they are in range, the crash reproduces at
    [revision_list[min_index]] and does not at [revision_list[max_index]]. *)
Definition bisect_invariant (test : Z → CrashResult)
    (revision_list : list Z) (min_index max_index : Z) : Prop :=
  max_index ≤ min_index
  ∨ (0 ≤ min_index ∧ min_index < max_index
     ∧ max_index < Z.of_nat (length revision_list)
     ∧ (∃ a, revision_list !! Z.to_nat min_index = Some a
             ∧ is_crash (test a) = true)
     ∧ (∃ b, revision_list !! Z.to_nat max_index = Some b
             ∧ is_crash (test b) = false)).

(** What a committed fixed range satisfies: [out] is the outcome of the
    task and [w] the world it leaves. *)
Definition committed_range_ok (test : Z → CrashResult)
    (all_revisions : list Z) (testcase_id : Z) (out : outcome) (w : world)
    : Prop :=
  match out with
  | Fixed a b revision_list min_index max_index =>
      is_crash (test a) = true
      ∧ is_crash (test b) = false
      ∧ Py.index revision_list min_index = Ok a
      ∧ Py.index revision_list max_index = Ok b
      ∧ 0 ≤ min_index
      ∧ max_index = min_index + 1
      ∧ revision_list `sublist_of` all_revisions
      ∧ ∃ t, db w !! testcase_id = Some t
             ∧ fixed t = Py.fmt_d a +:+ ":" +:+ Py.fmt_d b
             ∧ open t = false
  | _ => True
  end.

End Progression.

(* ================================================================== *)
(** * The crash line in the specification's words *)
(* ================================================================== *)

Module SpecWords.
Import Regex.

(** Follows the specification's words, not the source: "start-of-line,
    optional indent, literal [Test unit written to], whitespace, capture of
    path terminated by whitespace or EOL". *)
Definition SPEC_CRASH_LINE_REGEX : re :=
  seq_of [
    Star is_space;
    Lit (chars "Test unit written to");
    Class is_space;
    Star is_space;
    Group 1 (Seq (Class not_space) (Star not_space))
  ].

End SpecWords.

(* ================================================================== *)
(** * Concrete scenarios *)
(* ================================================================== *)

Module Scenarios.
Import Shell LibFuzzerCommon LibFuzzerEngine Progression.

(** A stand-in for [fuzzer_utils.extract_argument], which is not among the
    sources: the value of the first argument that starts with [prefix], and
    the arguments without it when [remove] is set. *)
Fixpoint extract_argument (arguments : list string) (prefix : string)
    (remove : bool) : option string * list string :=
  match arguments with
  | [] => (None, [])
  | argument :: rest =>
      if Py.startswith argument prefix then
        (Some (String.substring (String.length prefix)
                 (String.length argument - String.length prefix) argument),
         if remove then rest else arguments)
      else
        let r := extract_argument rest prefix remove in
        (r.1, argument :: r.2)
  end.

Definition no_environment : EngineCommon.environment :=
  {| EngineCommon.HARD_TIMEOUT_OVERRIDE := None;
     EngineCommon.MERGE_TIMEOUT_OVERRIDE := None;
     EngineCommon.MUTATIONS_TIMEOUT_OVERRIDE := None;
     EngineCommon.DICTIONARY_TIMEOUT_OVERRIDE := None |}.

Definition options : LibFuzzerOptions :=
  {| corpus_dir := "/corpus";
     arguments := ["-timeout=25"; "-rss_limit_mb=2048"; "-max_len=100"];
     strategies := [];
     fuzz_corpus_dirs := ["/corpus"; "/tmp/mutations"];
     use_dataflow_tracing := false;
     is_mutations_run := false |}.

(** An engine: the fuzzing run prints [fuzz_output] and leaves [new_units]
    in its first corpus directory, the merge run exits with code 0 and
    leaves [merged_units] in the merge directory. *)
Definition engine (fuzz_output : string) (new_units merged_units : directory)
    : runner :=
  λ args timeout fs,
    if bool_decide ("-merge=1" ∈ args) then
      ({| return_code := 0; timed_out := false; output := "";
          time_executed := 7; command := args |},
       <["/tmp/merge-corpus" := merged_units]> fs)
    else
      ({| return_code := 0; timed_out := false; output := fuzz_output;
          time_executed := 60; command := args |},
       <["/tmp/new" := new_units]> fs).

(** A child process that exits with code 0 and writes nothing. *)
Definition silent_runner : runner :=
  λ args timeout fs,
    ({| return_code := 0; timed_out := false; output := "";
        time_executed := 1; command := args |}, fs).

(** One fuzz session of an engine in an empty file system. *)
Definition session (run_and_wait : runner) :=
  fuzz "/tmp" run_and_wait no_environment extract_argument
    (λ _ _ _, ∅) (λ _, ∅) options "/reproducers" 3600 ∅.

(** The engine reports one new unit; the merge keeps it and one unit that
    came from the mutations directory. *)
Definition two_units_merged : runner :=
  engine ("#2 INITED" +:+ Py.LF +:+ "stat::new_units_added: 1" +:+ Py.LF)
    {[ "u1" := "a" ]}
    {[ "356a192b7913b04c54574d18c28d46e6395428ab" := "a";
       "da4b9237bacccdf19c0760cab7aec4a8359010b0" := "b" ]}.

(** The engine writes a reproducer whose name carries no crash marker. *)
Definition unmarked_reproducer : runner :=
  engine ("Test unit written to /reproducers/unit-7" +:+ Py.LF) ∅ ∅.

(** The engine writes a crash reproducer. *)
Definition crash_reproducer : runner :=
  engine ("==1== ERROR: AddressSanitizer" +:+ Py.LF
          +:+ "artifact_prefix='/reproducers/'; "
          +:+ "Test unit written to /reproducers/crash-abc" +:+ Py.LF
          +:+ "stat::new_units_added: 0" +:+ Py.LF) ∅ ∅.

(** A progression task: testcase 7 crashed at revision 100, the job has
    five revisions. *)
Definition testcase7 : Testcase :=
  {| key_id := 7; job_type := "libfuzzer_asan"; crash_type := "Heap-buffer-overflow";
     crash_state := "frame"; security_flag := true;
     one_time_crasher_flag := false; bug_information := ""; group_id := 0;
     regression := "90:100"; crash_revision := 100; http_flag := false;
     fixed := ""; open := true; last_tested_crash_stacktrace := "";
     comments := []; metadata := ∅ |}.

Definition closed_testcase7 : Testcase :=
  with_open false (with_fixed "120:130" testcase7).

Definition datastore (t : Testcase) : world :=
  {| db := {[ 7 := t ]}; events := [] |}.

Definition revisions : list Z := [100; 110; 120; 130; 140].

(** The crash reproduces up to revision [last]. *)
Definition crashes_until (last : Z) : Z → CrashResult :=
  λ revision,
    {| is_crash := bool_decide (revision ≤ last);
       crash_stacktrace := "stack of r" +:+ Py.fmt_d revision |}.

Definition progression (test : Z → CrashResult) (bad_build : Z → bool)
    (budget : nat) : M outcome :=
  find_fixed_range 0 budget None 0 (Some "/testcase") false revisions
    (λ _, true) bad_build test
    {| is_crash := false; crash_stacktrace := "" |} 7 "libfuzzer_asan_job".

End Scenarios.

(* ================================================================== *)
(** * Theorems *)
(* ================================================================== *)

Section engine_registry.
Import Engine.

Lemma register_engine_taken i σ :
  name i ∈ dom (_ENGINES σ) →
  register_engine i σ =
    (Raise (Py.ValueError ("Engine " +:+ name i +:+ " is already registered")), σ).
Proof. intros H. unfold register_engine. by rewrite decide_True. Qed.

Lemma register_engine_fresh i σ :
  name i ∉ dom (_ENGINES σ) →
  register_engine i σ =
    (Ok (), {| _ENGINES := <[name i := i]> (_ENGINES σ);
               next_object := next_object σ |}).
Proof. intros H. unfold register_engine. by rewrite decide_False. Qed.

(** Every key of the dictionary is the name of the implementation stored
    under it. *)
Definition keyed_by_name (σ : state) : Prop :=
  ∀ n i, _ENGINES σ !! n = Some i → name i = n.

Lemma register_engine_keyed i σ :
  keyed_by_name σ → keyed_by_name (register_engine i σ).2.
Proof.
  intros Hk. unfold register_engine. case_decide; simpl; [done|].
  intros n j. simpl. rewrite lookup_insert. case_decide; naive_solver.
Qed.

Lemma register_all_keyed impls σ :
  keyed_by_name σ → keyed_by_name (register_all impls σ).
Proof.
  revert σ. induction impls as [|i impls IH]; intros σ Hk; [done|].
  simpl. apply IH. by apply register_engine_keyed.
Qed.

(** Once a name is bound, later registrations never rebind it. *)
Lemma register_engine_preserves i σ n j :
  _ENGINES σ !! n = Some j → _ENGINES (register_engine i σ).2 !! n = Some j.
Proof.
  intros Hn. unfold register_engine. case_decide as Hd; simpl; [done|].
  rewrite lookup_insert_ne; [done|].
  intros <-. apply Hd, elem_of_dom. eauto.
Qed.

Lemma register_all_preserves impls σ n j :
  _ENGINES σ !! n = Some j → _ENGINES (register_all impls σ) !! n = Some j.
Proof.
  revert σ. induction impls as [|i impls IH]; intros σ Hn; [done|].
  simpl. apply IH. by apply register_engine_preserves.
Qed.

Lemma register_all_next_object impls σ :
  next_object (register_all impls σ) = next_object σ.
Proof.
  revert σ. induction impls as [|i impls IH]; intros σ; [done|].
  simpl. rewrite IH. unfold register_engine. by case_decide.
Qed.

End engine_registry.

(** The dictionary after a sequence of registrations: a name bound before
    keeps its binding, and a new name is bound to the first implementation
    of the sequence that carries it. *)
Lemma register_all_lookup impls σ n :
  Engine._ENGINES (Engine.register_all impls σ) !! n =
    match Engine._ENGINES σ !! n with
    | Some i => Some i
    | None => List.find (λ i, bool_decide (Engine.name i = n)) impls
    end.
Proof.
  revert σ. induction impls as [|i impls IH]; intros σ.
  - simpl. by destruct (_ !! n).
  - simpl. rewrite IH. unfold Engine.register_engine.
    case_decide as Hd; simpl.
    + destruct (Engine._ENGINES σ !! n) as [j|] eqn:Hn; [done|].
      case_bool_decide as Hi; [|done].
      subst n. apply elem_of_dom in Hd as [j Hj]. congruence.
    + rewrite lookup_insert. case_decide as Hi.
      * subst n. apply not_elem_of_dom in Hd. rewrite Hd.
        by rewrite bool_decide_true.
      * destruct (Engine._ENGINES σ !! n); [done|].
        by rewrite bool_decide_false.
Qed.

(** C9 (counterexample): looking up a name that was never registered
    returns [None] and raises nothing, and two lookups of a registered name
    return two different objects. *)
Lemma engine_get_counterexample :
  let σ := Engine.register_all
             [Engine.Impl "libFuzzer" 0; Engine.Impl "afl" 1] Engine.initial in
  (Engine.get "honggfuzz" σ).1 = Ok None
  ∧ (¬ ∃ e, (Engine.get "honggfuzz" σ).1 = Raise e)
  ∧ ∃ o1 o2,
      (Engine.get "afl" σ).1 = Ok (Some o1)
      ∧ (Engine.get "afl" (Engine.get "afl" σ).2).1 = Ok (Some o2)
      ∧ o1 ≠ o2.
Proof.
  split; [done|]. split; [by intros [e He]|].
  eexists _, _. split; [done|]. split; [done|]. done.
Qed.

(** C9 (amended): registering under a name that is already registered
    raises [ValueError] and changes nothing, so a name is bound to the
    first implementation registered under it; looking up a registered name
    constructs a new instance of that implementation at every call, and
    looking up an unregistered name returns [None]. *)
Theorem engine_registry_contract (impls : list Engine.impl) (n : string) :
  let σ := Engine.register_all impls Engine.initial in
  (∀ j, Engine.name j = n → n ∈ dom (Engine._ENGINES σ) →
        Engine.register_engine j σ =
          (Raise (Py.ValueError
                    ("Engine " +:+ n +:+ " is already registered")), σ))
  ∧ match List.find (λ i, bool_decide (Engine.name i = n)) impls with
    | Some i =>
        Engine._ENGINES σ !! n = Some i
        ∧ ∃ o1 σ1 o2 σ2,
            Engine.get n σ = (Ok (Some o1), σ1)
            ∧ Engine.get n σ1 = (Ok (Some o2), σ2)
            ∧ Engine.instance_of o1 = i ∧ Engine.instance_of o2 = i
            ∧ Engine.object_id o1 ≠ Engine.object_id o2
            ∧ Engine._ENGINES σ2 = Engine._ENGINES σ
    | None =>
        Engine._ENGINES σ !! n = None
        ∧ Engine.get n σ = (Ok None, σ)
    end.
Proof.
  intros σ. split.
  - intros j <- Hdom. by apply register_engine_taken.
  - pose proof (register_all_lookup impls Engine.initial n) as Hl.
    simpl in Hl. rewrite lookup_empty in Hl. fold σ in Hl.
    destruct (List.find _ impls) as [i|] eqn:Hf.
    + split; [done|].
      exists (Engine.Instance i (Engine.next_object σ)),
             (Engine.State (Engine._ENGINES σ) (S (Engine.next_object σ))),
             (Engine.Instance i (S (Engine.next_object σ))),
             (Engine.State (Engine._ENGINES σ) (S (S (Engine.next_object σ)))).
      unfold Engine.get. simpl. rewrite Hl. repeat split; simpl; lia.
    + split; [done|]. unfold Engine.get. by rewrite Hl.
Qed.

(** The registry contract at a concrete sequence with a duplicate name. *)
Lemma engine_registry_contract_witness :
  let impls := [Engine.Impl "libFuzzer" 0; Engine.Impl "afl" 1;
                Engine.Impl "libFuzzer" 2] in
  let σ := Engine.register_all impls Engine.initial in
  Engine.register_engine (Engine.Impl "libFuzzer" 2) σ =
    (Raise (Py.ValueError "Engine libFuzzer is already registered"), σ)
  ∧ Engine._ENGINES σ !! "libFuzzer" = Some (Engine.Impl "libFuzzer" 0).
Proof.
  intros impls σ.
  pose proof (engine_registry_contract impls "libFuzzer") as [H1 H2].
  split.
  - apply (H1 (Engine.Impl "libFuzzer" 2)); [reflexivity|].
    vm_compute. reflexivity.
  - apply H2.
Defined.

(* ------------------------------------------------------------------ *)
(** ** Corpus merge-back: [move_mergeable_units] *)
(* ------------------------------------------------------------------ *)

Section move_mergeable_units.
Import Regex Shell Launcher.

Lemma move_units_lookup (initial_units : gset string)
    (units : list (string * string)) (merge corpus : directory) (n : string) :
  NoDup units.*1 →
  let r := foldl (move_unit initial_units) (merge, corpus) units in
  r.2 !! n =
    (if skipped initial_units n then corpus !! n
     else match (list_to_map units : directory) !! n with
          | Some data => Some data
          | None => corpus !! n
          end)
  ∧ r.1 !! n =
    (if skipped initial_units n then merge !! n
     else match (list_to_map units : directory) !! n with
          | Some _ => None
          | None => merge !! n
          end).
Proof.
  revert merge corpus.
  induction units as [|[k v] units IH]; intros merge corpus Hnd; simpl.
  - rewrite lookup_empty. by destruct (skipped _ _).
  - apply NoDup_cons in Hnd as [Hk Hnd].
    assert ((list_to_map units : directory) !! k = None) as Hkn
      by by apply not_elem_of_list_to_map_1.
    unfold move_unit at 2 4. simpl.
    destruct (skipped initial_units k) eqn:Hex; simpl.
    + destruct (IH merge corpus Hnd) as [IH2 IH1].
      rewrite IH2, IH1. destruct (decide (k = n)) as [->|Hne].
      * by rewrite Hex.
      * by rewrite lookup_insert_ne.
    + destruct (IH (delete k merge) (<[k:=v]> corpus) Hnd) as [IH2 IH1].
      rewrite IH2, IH1. destruct (decide (k = n)) as [->|Hne].
      * rewrite Hex, Hkn, !lookup_insert_eq, lookup_delete_eq. done.
      * rewrite !lookup_insert_ne, lookup_delete_ne by done. done.
Qed.

Lemma is_sha1_hash_spec (s : string) :
  is_sha1_hash s = true ↔
    String.length s = 40%nat ∧ Forall (λ c, c ∈ HEXDIGITS_SET) (chars s).
Proof.
  unfold is_sha1_hash. case_decide as Hlen.
  - split; [done|]. intros [? _]. done.
  - rewrite forallb_forall, Forall_forall.
    split.
    + intros H. split; [done|]. intros c Hc.
      apply list_elem_of_In in Hc. apply H in Hc.
      by apply bool_decide_eq_true in Hc.
    + intros [_ H] c Hc. apply bool_decide_eq_true, H.
      by apply list_elem_of_In.
Qed.

(** C6: [move_mergeable_units] moves every file of the merge directory into
    the corpus directory, except exactly the files whose name is already
    present in the corpus directory and is made of 40 hexadecimal
    characters; the moved units are in the corpus directory afterwards
    (and gone from the merge directory), the excluded ones stay where they
    were and the corpus file of that name is untouched. *)
Theorem move_mergeable_units_spec (merge_directory corpus_directory : directory)
    (unit_name : string) :
  let skip :=
    bool_decide (unit_name ∈ dom corpus_directory) && is_sha1_hash unit_name in
  let after := move_mergeable_units merge_directory corpus_directory in
  after.2 !! unit_name =
    (if skip then corpus_directory !! unit_name
     else match merge_directory !! unit_name with
          | Some data => Some data
          | None => corpus_directory !! unit_name
          end)
  ∧ after.1 !! unit_name =
    (if skip then merge_directory !! unit_name else None)
  ∧ (is_sha1_hash unit_name = true ↔
       String.length unit_name = 40%nat
       ∧ Forall (λ c, c ∈ chars "0123456789abcdefABCDEF") (chars unit_name)).
Proof.
  intros skip after.
  destruct (move_units_lookup (dom corpus_directory)
              (map_to_list merge_directory) merge_directory corpus_directory
              unit_name (NoDup_fst_map_to_list _)) as [H2 H1].
  rewrite list_to_map_to_list in H2, H1.
  split; [exact H2|]. split; [|apply is_sha1_hash_spec].
  subst after. unfold move_mergeable_units. rewrite H1.
  change (Launcher.skipped (dom corpus_directory) unit_name) with skip.
  destruct skip; [done|]. by destruct (merge_directory !! unit_name).
Qed.

End move_mergeable_units.

(* ------------------------------------------------------------------ *)
(** ** Seed corpus: [unpack_seed_corpus_if_needed] *)
(* ------------------------------------------------------------------ *)

Section unpack_seed_corpus.
Import Shell EngineCommon.

(** The archive is expanded exactly when [force_unpack] is set or the
    corpus has at most [max_files_for_unpack] files. *)
Lemma unpack_seed_corpus_condition archive corpus max_bytes force max_files :
  unpack_seed_corpus_if_needed (Some archive) corpus max_bytes force max_files =
    if decide (force = true ∨ Z.of_nat (base.size corpus) ≤ max_files)
    then (foldl (unpack_entry max_bytes) (0, corpus) archive).2
    else corpus.
Proof.
  unfold unpack_seed_corpus_if_needed.
  case_decide as Hc; destruct force; simpl; try done.
  - rewrite bool_decide_false; [done|]. destruct Hc as [?|?]; [done|lia].
  - exfalso. apply Hc. by left.
  - rewrite bool_decide_true; [done|]. lia.
Qed.

(** Without an archive nothing happens. *)
Lemma unpack_seed_corpus_no_archive corpus max_bytes force max_files :
  unpack_seed_corpus_if_needed None corpus max_bytes force max_files = corpus.
Proof. done. Qed.

(** C7 (the code at the failing input): with [force_unpack] unset and a
    corpus that holds exactly [MAX_FILES_FOR_UNPACK] files, which is not
    fewer than the limit, the archive is expanded all the same: the
    directory entry is skipped and the file entry is written under index
    0. *)
Theorem unpack_seed_corpus_at_limit :
  let corpus : directory :=
    {[ "a" := "1"; "b" := "2"; "c" := "3"; "d" := "4"; "e" := "5" ]} in
  let archive :=
    [ {| name := "seeds/"; size := 0; handle := "" |};
      {| name := "seeds/one"; size := 3; handle := "abc" |} ] in
  Z.of_nat (base.size corpus) = MAX_FILES_FOR_UNPACK
  ∧ unpack_seed_corpus_if_needed (Some archive) corpus None false
      MAX_FILES_FOR_UNPACK
    = <["0000000000000000" := "abc"]> corpus.
Proof. split; vm_compute; reflexivity. Qed.

End unpack_seed_corpus.

(* ------------------------------------------------------------------ *)
(** ** Testcase minimization: [minimize_testcase] *)
(* ------------------------------------------------------------------ *)

Section minimize_testcase.
Import Shell Constants LibFuzzerCommon LibFuzzerEngine.

(** C8 (counterexample): the engine exits with code 0 without writing
    anything at the output path, and [minimize_testcase] returns [True]. *)
Lemma minimize_testcase_counterexample :
  ∃ fs,
    minimize_testcase "/tmp" Scenarios.silent_runner [] "/in/crash-1"
      "/out/minimized"
      30 ∅ = Ok (true, fs)
    ∧ ¬ file_at fs "/out/minimized".
Proof.
  exists (<["/tmp/minimize-workdir" := ∅]> ∅).
  split; [vm_compute; reflexivity|].
  intros (d & n & _ & [x Hx]). unfold ls in Hx.
  destruct (decide (d = "/tmp/minimize-workdir")) as [->|Hne].
  - rewrite lookup_insert_eq in Hx. simpl in Hx. by rewrite lookup_empty in Hx.
  - rewrite lookup_insert_ne in Hx by done.
    rewrite lookup_empty in Hx. simpl in Hx. by rewrite lookup_empty in Hx.
Qed.

(** C8 (amended): the engine is started with [-max_total_time=] set to
    half of the allotted time less the clean-exit window, rounded down, and
    [minimize_testcase] returns [True] exactly when the engine process
    exits with code 0, whether or not an output file was written; when that
    budget is not positive the call fails an assertion instead. *)
Theorem minimize_testcase_spec (temp_dir : string) (run_and_wait : runner)
    (arguments : list string) (input_path output_path : string)
    (max_time : Z) (fs : filesystem) :
  let max_total_time := (max_time - 10) `div` 2 in
  let workdir := join temp_dir "minimize-workdir" in
  let command_line :=
    arguments
    ++ [ "-artifact_prefix=" +:+ workdir +:+ "/";
         "-minimize_crash=1";
         "-max_total_time=" +:+ Py.fmt_d max_total_time;
         "-exact_artifact_path=" +:+ output_path;
         input_path ] in
  let run := run_and_wait command_line max_time (<[workdir := ∅]> fs) in
  2 * max_total_time ≤ max_time - 10 < 2 * max_total_time + 2
  ∧ minimize_testcase temp_dir run_and_wait arguments input_path output_path
      max_time fs
    = if decide (max_total_time > 0)
      then Ok (bool_decide (return_code run.1 = 0), run.2)
      else Raise Py.AssertionError.
Proof.
  intros max_total_time workdir command_line run. split.
  - subst max_total_time.
    pose proof (Z.div_mod (max_time - 10) 2 ltac:(lia)).
    pose proof (Z.mod_pos_bound (max_time - 10) 2 ltac:(lia)). lia.
  - unfold minimize_testcase, minimize_crash, _create_temp_corpus_dir,
      EngineCommon.recreate_directory, _artifact_prefix.
    fold workdir. change LIBFUZZER_CLEAN_EXIT_TIME with 10.
    fold max_total_time. case_decide; [|done]. simpl.
    match goal with
    | |- context [run_and_wait ?a _ _] => replace a with command_line
    end.
    + fold run. by destruct run.
    + subst command_line. by rewrite <- app_assoc.
Qed.

End minimize_testcase.

(* ------------------------------------------------------------------ *)
(** ** Progression: [find_fixed_range] *)
(* ------------------------------------------------------------------ *)

Section progression.
Import Progression.

Variable now : Z.
Variable iterations_before_deadline : nat.
Variable FAIL_WAIT : option Z.
Variable APP_REVISION : Z.
Variable setup_testcase : option string.
Variable is_custom_binary : bool.
Variable get_revisions_list : list Z.
Variable app_path_set : option Z → bool.
Variable check_for_bad_build : Z → bool.
Variable test_for_crash_with_retries : Z → CrashResult.
Variable custom_binary_result : CrashResult.

Local Abbreviation find_fixed_range :=
  (Progression.find_fixed_range now iterations_before_deadline FAIL_WAIT
     APP_REVISION setup_testcase is_custom_binary get_revisions_list
     app_path_set check_for_bad_build test_for_crash_with_retries
     custom_binary_result).

(** *** Running the state-and-exception monad *)

Lemma bind_bind {A B C} (m : M A) (k1 : A → M B) (k2 : B → M C) w :
  bind (bind m k1) k2 w = bind m (λ a, bind (k1 a) k2) w.
Proof. unfold bind. destruct (m w) as [[a|e] w']; [|done]. done. Qed.

Lemma bind_ret {A B} (a : A) (k : A → M B) w : bind (ret a) k w = k a w.
Proof. done. Qed.

Lemma bind_raise {A B} e (k : A → M B) w :
  bind (raise e) k w = (Raise e, w).
Proof. done. Qed.

Lemma bind_lift_ok {A B} (a : A) (k : A → M B) w :
  bind (lift (Ok a)) k w = k a w.
Proof. done. Qed.

Lemma bind_lift_raise {A B} e (k : A → M B) w :
  bind (lift (Raise e)) k w = (Raise e, w).
Proof. done. Qed.

Lemma bind_emit {B} ev (k : unit → M B) w :
  bind (emit ev) k w = k () {| db := db w; events := events w ++ [ev] |}.
Proof. done. Qed.

Lemma bind_put {B} t (k : unit → M B) w :
  bind (put t) k w =
    k () {| db := <[key_id t := t]> (db w); events := events w |}.
Proof. done. Qed.

Lemma bind_fetch {B} testcase_id t (k : Testcase → M B) w :
  db w !! testcase_id = Some t →
  bind (fetch testcase_id) k w = k t w.
Proof.
  intros Hdb. unfold fetch. rewrite bind_bind.
  unfold bind at 1, get_testcase_by_id. by rewrite Hdb.
Qed.

Lemma bind_set_metadata {B} t key v (update : bool) (k : Testcase → M B) w :
  bind (set_metadata t key v update) k w =
    let t' := with_metadata (<[key := v]> (metadata t)) t in
    k t' (if update
          then {| db := <[key_id t := t']> (db w); events := events w |}
          else w).
Proof. by destruct update. Qed.

Lemma bind_update_testcase_comment {B} t state message
    (k : Testcase → M B) w :
  bind (update_testcase_comment t state message) k w =
    let t' :=
      with_comments
        (comments t ++ [TaskState_name state +:+ ": " +:+ default "" message])
        t in
    k t' {| db := <[key_id t := t']> (db w); events := events w |}.
Proof. done. Qed.

Lemma bind_clear_progression_pending {B} t (k : Testcase → M B) w :
  bind (_clear_progression_pending t) k w =
    k (if truthy (metadata t !! "progression_pending")
       then with_metadata (delete "progression_pending" (metadata t)) t
       else t) w.
Proof.
  unfold _clear_progression_pending, get_metadata.
  by destruct (truthy _).
Qed.

Lemma bind_update_completion_metadata {B} t revision (crash : bool) message
    (k : Testcase → M B) w :
  let m0 :=
    if truthy (metadata t !! "progression_pending")
    then delete "progression_pending" (metadata t) else metadata t in
  let m1 := <["last_tested_revision" := VInt revision]> m0 in
  let m2 :=
    if crash
    then <["last_tested_crash_time" := VTime now]>
           (<["last_tested_crash_revision" := VInt revision]> m1)
    else m1 in
  let m3 := if open t then m2 else <["closed_time" := VTime now]> m2 in
  let t' :=
    with_comments (comments t ++ ["Finished: " +:+ default "" message])
      (with_metadata m3 t) in
  bind (_update_completion_metadata now t revision crash message) k w =
    k t' {| db := <[key_id t := t']> (db w); events := events w |}.
Proof.
  intros m0 m1 m2 m3 t'. unfold _update_completion_metadata.
  rewrite bind_bind, bind_clear_progression_pending.
  rewrite bind_bind, bind_set_metadata. cbn zeta.
  rewrite bind_bind.
  subst t' m3 m2 m1 m0.
  destruct crash, (open t) eqn:Hopen, (truthy _); cbn;
    rewrite ?Hopen; reflexivity.
Qed.

Lemma bind_testcase_reproduces {B} t revision (k : CrashResult → M B) w :
  app_path_set (Some revision) = true →
  check_for_bad_build revision = false →
  bind (_testcase_reproduces_in_revision app_path_set check_for_bad_build
          test_for_crash_with_retries t revision) k w =
    k (test_for_crash_with_retries revision)
      {| db := db w;
         events := events w
                   ++ [SetupBuild (Some revision); TestForCrash revision;
                       Log ("Testing " +:+ Py.fmt_d revision +:+ ".")] |}.
Proof.
  intros Happ Hbad. unfold _testcase_reproduces_in_revision.
  rewrite bind_bind, bind_emit, Happ, Hbad. cbn [negb].
  rewrite bind_bind, bind_emit. unfold _log_output.
  rewrite bind_bind, bind_emit, bind_ret. cbn [db events].
  by rewrite <- !app_assoc.
Qed.

(** C10: when the testcase's [fixed] field is already set,
    [find_fixed_range] logs an error and returns: the datastore is exactly
    as before (every field and metadata entry of the testcase included), no
    build is set up, no reproduction is tried and no task is enqueued. *)
Theorem find_fixed_range_already_fixed (testcase_id : Z) (job : string)
    (w : world) (t : Testcase) :
  db w !! testcase_id = Some t →
  fixed t ≠ "" →
  find_fixed_range testcase_id job w =
    (Ok AlreadyFixed,
     {| db := db w;
        events := events w
                  ++ [LogError ("Fixed range is already set as " +:+ fixed t
                                +:+ ", skip.")] |}).
Proof.
  intros Hdb Hfixed. unfold Progression.find_fixed_range, bind at 1.
  unfold get_testcase_by_id. rewrite Hdb. by rewrite decide_True.
Qed.

Lemma revisions_of_pending t v :
  known_crash_revision_of
    (with_metadata (<["progression_pending" := v]> (metadata t)) t)
  = known_crash_revision_of t
  ∧ min_revision_of
      (with_metadata (<["progression_pending" := v]> (metadata t)) t)
    = min_revision_of t
  ∧ ∀ rl, max_revision_of
      (with_metadata (<["progression_pending" := v]> (metadata t)) t) rl
    = max_revision_of t rl.
Proof.
  unfold max_revision_of, min_revision_of, known_crash_revision_of,
    get_metadata. simpl.
  by rewrite !lookup_insert_ne.
Qed.

(** Runs [find_fixed_range] up to its first reproduction test, given the
    usual hypotheses on the stored testcase and the collaborators. *)
Ltac run_to_first_test Hdb Hfixed Hsetup Hcustom Hrl Hmin Hmax :=
  let Hk := fresh "Hk" in
  let Hmi := fresh "Hmi" in
  let Hma := fresh "Hma" in
  match type of Hdb with
  | db _ !! key_id ?t = Some _ =>
      destruct (revisions_of_pending t (VBool true)) as (Hk & Hmi & Hma)
  end;
  unfold Progression.find_fixed_range;
  unfold bind at 1, get_testcase_by_id; rewrite Hdb;
  rewrite decide_False by (by rewrite Hfixed; intros []);
  rewrite Hsetup, bind_set_metadata, Hcustom; cbn zeta;
  rewrite decide_False by exact Hrl;
  rewrite Hk, Hmi, Hma, Hmin, Hmax;
  erewrite bind_fetch by (cbn; apply lookup_insert_eq);
  rewrite bind_update_testcase_comment;
  cbn [db events key_id with_metadata with_comments
       with_last_tested_crash_stacktrace with_fixed with_open];
  clear Hk Hmi Hma.

(** C2 (amended): when the test at the maximum revision still crashes,
    [find_fixed_range] makes that one reproduction test and returns without
    entering the bisection loop: no task is enqueued, [fixed] and [open]
    are as before, and in the stored testcase exactly this changes: the
    stacktrace is replaced, the comments get the start and the completion
    lines, and in the metadata [progression_pending] is removed,
    [last_tested_revision] and [last_tested_crash_revision] are the maximum
    revision, [last_tested_crash_time] is the current time, [closed_time]
    is set when the testcase is not open, and [potentially_flaky] is
    [False]. *)
Theorem find_fixed_range_still_crashes (testcase_id : Z) (job : string)
    (w : world) (t : Testcase) (testcase_file_path : string)
    (min_index max_index : Z) :
  let max_revision := max_revision_of t get_revisions_list in
  let result := test_for_crash_with_retries max_revision in
  let m1 :=
    <["last_tested_crash_time" := VTime now]>
      (<["last_tested_crash_revision" := VInt max_revision]>
         (<["last_tested_revision" := VInt max_revision]>
            (delete "progression_pending" (metadata t)))) in
  let m2 := if open t then m1 else <["closed_time" := VTime now]> m1 in
  let t' :=
    with_metadata (<["potentially_flaky" := VBool false]> m2)
      (with_comments
         (comments t
          ++ ["Started: r" +:+ Py.fmt_d max_revision;
              "Finished: still crashes on latest revision r"
              +:+ Py.fmt_d max_revision])
         (with_last_tested_crash_stacktrace (crash_stacktrace result) t)) in
  db w !! testcase_id = Some t →
  key_id t = testcase_id →
  fixed t = "" →
  setup_testcase = Some testcase_file_path →
  is_custom_binary = false →
  get_revisions_list ≠ [] →
  find_min_revision_index get_revisions_list (min_revision_of t)
    = Some min_index →
  find_max_revision_index get_revisions_list max_revision = Some max_index →
  app_path_set (Some max_revision) = true →
  check_for_bad_build max_revision = false →
  is_crash result = true →
  find_fixed_range testcase_id job w =
    (Ok StillCrashes,
     {| db := <[testcase_id := t']> (db w);
        events :=
          events w
          ++ [SetupBuild (Some max_revision); TestForCrash max_revision;
              Log ("Testing " +:+ Py.fmt_d max_revision +:+ ".");
              Log ("Found crash with same signature on latest revision r"
                   +:+ Py.fmt_d max_revision +:+ ".");
              SaveCrashInfo testcase_id max_revision] |})
  ∧ fixed t' = fixed t ∧ open t' = open t.
Proof.
  intros max_revision result m1 m2 t' Hdb Hkey Hfixed Hsetup Hcustom Hrl
    Hmin Hmax Happ Hbad Hcrash.
  split; [|done]. subst testcase_id.
  assert (Hmax' := Hmax). unfold max_revision in Hmax'.
  run_to_first_test Hdb Hfixed Hsetup Hcustom Hrl Hmin Hmax'.
  fold max_revision.
  rewrite bind_testcase_reproduces by done. fold result. rewrite Hcrash.
  cbv beta iota.
  rewrite bind_emit.
  erewrite bind_fetch by (cbn; apply lookup_insert_eq).
  rewrite bind_update_completion_metadata.
  cbn [db events key_id metadata comments open with_metadata with_comments
       with_last_tested_crash_stacktrace with_fixed with_open].
  unfold mark_unreproducible_if_flaky.
  rewrite bind_set_metadata. cbn zeta.
  rewrite bind_emit, lookup_insert_eq. cbn [truthy].
  unfold ret.
  cbn [db events key_id metadata comments open with_metadata with_comments
       with_last_tested_crash_stacktrace with_fixed with_open].
  rewrite !insert_insert_eq, <- !app_assoc, delete_insert_eq.
  subst t' m2 m1. by destruct (open t).
Qed.

Lemma bind_is_first_retry_for_task {B} t (k : bool * Testcase → M B) w :
  bind (is_first_retry_for_task t true) k w =
    let first := negb (truthy (metadata t !! "progression_retry")) in
    let t' :=
      with_metadata (<["progression_retry" := VBool first]> (metadata t)) t in
    k (first, t')
      {| db := <[key_id t := t']> (db w); events := events w |}.
Proof.
  unfold is_first_retry_for_task, get_metadata.
  destruct (truthy _); cbn [negb]; by rewrite bind_bind, bind_set_metadata.
Qed.

(** One run of [find_fixed_range] in which the maximum revision does not
    crash any more and the minimum revision does not crash either. *)
Lemma find_fixed_range_min_guard (testcase_id : Z) (job : string)
    (w : world) (t : Testcase) (testcase_file_path : string)
    (min_index max_index : Z) :
  let max_revision := max_revision_of t get_revisions_list in
  let min_revision := min_revision_of t in
  let first := negb (truthy (metadata t !! "progression_retry")) in
  let started := "Started: r" +:+ Py.fmt_d max_revision in
  let known := Py.fmt_d (known_crash_revision_of t) in
  let trials :=
    [SetupBuild (Some max_revision); TestForCrash max_revision;
     Log ("Testing " +:+ Py.fmt_d max_revision +:+ ".");
     SetValue "CACHE_STORE" false;
     SetupBuild (Some min_revision); TestForCrash min_revision;
     Log ("Testing " +:+ Py.fmt_d min_revision +:+ ".")] in
  let m_retry :=
    <["last_tested_revision" := VInt max_revision]>
      (delete "progression_pending"
         (<["progression_retry" := VBool true]>
            (<["progression_pending" := VBool true]> (metadata t)))) in
  let t_retry :=
    with_comments
      (comments t
       ++ [started;
           "Error: Known crash revision " +:+ known
           +:+ " did not crash, will retry on another bot to confirm result";
           "Finished: "])
      (with_metadata
         (if open t then m_retry else <["closed_time" := VTime now]> m_retry)
         t) in
  let t_flaky :=
    with_metadata
      (<["potentially_flaky" := VBool true]>
         (delete "progression_pending"
            (<["progression_retry" := VBool false]>
               (<["progression_pending" := VBool true]> (metadata t)))))
      (with_comments
         (comments t
          ++ [started;
              "Error: Known crash revision " +:+ known +:+ " did not crash"])
         t) in
  db w !! testcase_id = Some t →
  key_id t = testcase_id →
  fixed t = "" →
  setup_testcase = Some testcase_file_path →
  is_custom_binary = false →
  get_revisions_list ≠ [] →
  find_min_revision_index get_revisions_list min_revision = Some min_index →
  find_max_revision_index get_revisions_list max_revision = Some max_index →
  app_path_set (Some max_revision) = true →
  check_for_bad_build max_revision = false →
  is_crash (test_for_crash_with_retries max_revision) = false →
  app_path_set (Some min_revision) = true →
  check_for_bad_build min_revision = false →
  is_crash (test_for_crash_with_retries min_revision) = false →
  find_fixed_range testcase_id job w =
    if first then
      (Ok MinRetry,
       {| db := <[testcase_id := t_retry]> (db w);
          events := events w ++ trials
                    ++ [AddTask "progression" testcase_id job None] |})
    else
      (Ok MinFlaky,
       {| db := <[testcase_id := t_flaky]> (db w);
          events := events w ++ trials |}).
Proof.
  intros max_revision min_revision first started known trials m_retry
    t_retry t_flaky Hdb Hkey Hfixed Hsetup Hcustom Hrl Hmin Hmax
    Happ Hbad Hcrash Happ' Hbad' Hcrash'.
  subst testcase_id.
  assert (Hmax' := Hmax). unfold max_revision in Hmax'.
  assert (Hmin' := Hmin). unfold min_revision in Hmin'.
  run_to_first_test Hdb Hfixed Hsetup Hcustom Hrl Hmin' Hmax'.
  fold max_revision min_revision.
  rewrite bind_testcase_reproduces by done. rewrite Hcrash.
  cbv beta iota.
  rewrite bind_emit, bind_testcase_reproduces by done. rewrite Hcrash'.
  cbn [negb]. cbv beta iota.
  erewrite bind_fetch by (cbn; apply lookup_insert_eq).
  rewrite bind_is_first_retry_for_task.
  cbn [db events key_id metadata comments open with_metadata with_comments
       with_last_tested_crash_stacktrace with_fixed with_open fst snd].
  rewrite lookup_insert_ne by done. fold first.
  destruct first; cbv beta iota zeta.
  - rewrite bind_emit, bind_update_testcase_comment.
    cbn [db events key_id metadata comments open with_metadata with_comments
       with_last_tested_crash_stacktrace with_fixed with_open fst snd].
    rewrite bind_update_completion_metadata.
    cbn [db events key_id metadata comments open with_metadata with_comments
       with_last_tested_crash_stacktrace with_fixed with_open fst snd].
    unfold ret.
    rewrite lookup_insert_ne, lookup_insert_eq by done. cbn [truthy].
    rewrite !insert_insert_eq, <- !app_assoc.
    subst t_retry m_retry started known trials. by destruct (open t).
  - rewrite bind_clear_progression_pending.
    cbn [db events key_id metadata comments open with_metadata with_comments
       with_last_tested_crash_stacktrace with_fixed with_open fst snd].
    rewrite lookup_insert_ne, lookup_insert_eq by done. cbn [truthy].
    rewrite bind_update_testcase_comment.
    unfold mark_unreproducible_if_flaky.
    rewrite bind_set_metadata. unfold ret.
    cbn [db events key_id metadata comments open with_metadata with_comments
       with_last_tested_crash_stacktrace with_fixed with_open fst snd].
    rewrite !insert_insert_eq, <- !app_assoc.
    subst t_flaky started known trials. reflexivity.
Qed.


(** C3: when the crash reproduces neither at the maximum revision nor at
    the minimum (known crash) revision, [find_fixed_range] returns before
    the bisection loop and leaves [fixed] empty.  The first such run
    enqueues the progression task again; the run after it enqueues nothing
    and marks the testcase as potentially flaky. *)
Theorem find_fixed_range_min_revision_unreliable (testcase_id : Z)
    (job : string) (w : world) (t : Testcase) (testcase_file_path : string)
    (min_index max_index : Z) :
  let max_revision := max_revision_of t get_revisions_list in
  let min_revision := min_revision_of t in
  let trials :=
    [SetupBuild (Some max_revision); TestForCrash max_revision;
     Log ("Testing " +:+ Py.fmt_d max_revision +:+ ".");
     SetValue "CACHE_STORE" false;
     SetupBuild (Some min_revision); TestForCrash min_revision;
     Log ("Testing " +:+ Py.fmt_d min_revision +:+ ".")] in
  db w !! testcase_id = Some t →
  key_id t = testcase_id →
  fixed t = "" →
  truthy (metadata t !! "progression_retry") = false →
  setup_testcase = Some testcase_file_path →
  is_custom_binary = false →
  get_revisions_list ≠ [] →
  find_min_revision_index get_revisions_list min_revision = Some min_index →
  find_max_revision_index get_revisions_list max_revision = Some max_index →
  app_path_set (Some max_revision) = true →
  check_for_bad_build max_revision = false →
  is_crash (test_for_crash_with_retries max_revision) = false →
  app_path_set (Some min_revision) = true →
  check_for_bad_build min_revision = false →
  is_crash (test_for_crash_with_retries min_revision) = false →
  ∃ w1 w2 t1 t2,
    find_fixed_range testcase_id job w = (Ok MinRetry, w1)
    ∧ events w1 = events w ++ trials
                  ++ [AddTask "progression" testcase_id job None]
    ∧ db w1 !! testcase_id = Some t1
    ∧ fixed t1 = ""
    ∧ find_fixed_range testcase_id job w1 = (Ok MinFlaky, w2)
    ∧ events w2 = events w1 ++ trials
    ∧ db w2 !! testcase_id = Some t2
    ∧ fixed t2 = ""
    ∧ metadata t2 !! "potentially_flaky" = Some (VBool true).
Proof.
  intros max_revision min_revision trials Hdb Hkey Hfixed Hretry Hsetup
    Hcustom Hrl Hmin Hmax Happ Hbad Hcrash Happ' Hbad' Hcrash'.
  pose proof (find_fixed_range_min_guard testcase_id job w t
                testcase_file_path min_index max_index Hdb Hkey Hfixed
                Hsetup Hcustom Hrl Hmin Hmax Happ Hbad Hcrash Happ' Hbad'
                Hcrash') as Hrun1.
  rewrite Hretry in Hrun1. cbn [negb] in Hrun1.
  match type of Hrun1 with
  | _ = (_, {| db := <[_ := ?x]> _; events := _ |}) => set (t1 := x) in *
  end.
  assert (Hrev : known_crash_revision_of t1 = known_crash_revision_of t
                 ∧ min_revision_of t1 = min_revision
                 ∧ max_revision_of t1 get_revisions_list = max_revision).
  { subst t1 min_revision max_revision.
    unfold max_revision_of, min_revision_of, known_crash_revision_of,
      get_metadata.
    cbn [metadata with_comments with_metadata crash_revision].
    destruct (open t);
      rewrite ?lookup_insert_ne, ?lookup_delete_ne, ?lookup_insert_ne by done;
      done. }
  destruct Hrev as (Hk1 & Hmin1 & Hmax1).
  assert (Hret1 : truthy (metadata t1 !! "progression_retry") = true).
  { subst t1. cbn [metadata with_comments with_metadata].
    destruct (open t);
      rewrite ?lookup_insert_ne, ?lookup_delete_ne by done;
      by rewrite lookup_insert_eq. }
  match type of Hrun1 with
  | _ = (_, ?x) => set (w1 := x) in *
  end.
  assert (Hdb1 : db w1 !! testcase_id = Some t1)
    by (subst w1; cbn [db]; apply lookup_insert_eq).
  assert (Hkey1 : key_id t1 = testcase_id) by exact Hkey.
  assert (Hfixed1 : fixed t1 = "") by exact Hfixed.
  pose proof (find_fixed_range_min_guard testcase_id job w1 t1
                testcase_file_path min_index max_index Hdb1 Hkey1 Hfixed1
                Hsetup Hcustom Hrl) as Hrun2.
  cbv zeta in Hrun2. rewrite Hk1, Hmin1, Hmax1, Hret1 in Hrun2.
  specialize (Hrun2 Hmin Hmax Happ Hbad Hcrash Happ' Hbad' Hcrash').
  cbn [negb] in Hrun2.
  match type of Hrun2 with
  | _ = (_, {| db := <[_ := ?x]> _; events := _ |}) => set (t2 := x) in *
  end.
  match type of Hrun2 with
  | _ = (_, ?x) => set (w2 := x) in *
  end.
  exists w1, w2, t1, t2.
  split; [exact Hrun1|]. split; [done|]. split; [done|]. split; [done|].
  split; [exact Hrun2|]. split; [done|].
  split; [subst w2; cbn [db]; apply lookup_insert_eq|].
  split; [exact Hfixed|].
  subst t2. cbn [metadata with_metadata]. apply lookup_insert_eq.
Qed.


(** *** Reasoning about normal returns *)

Lemma wp_bind {A B} (m : M A) (k : A → M B) Q w :
  wp m (λ a w', wp (k a) Q w') w → wp (bind m k) Q w.
Proof. unfold wp, bind. by destruct (m w) as [[a|e] w']. Qed.

Lemma wp_ret {A} (a : A) (Q : A → world → Prop) w : Q a w → wp (ret a) Q w.
Proof. done. Qed.

Lemma wp_raise {A} e (Q : A → world → Prop) w : wp (raise e) Q w.
Proof. done. Qed.

Lemma wp_lift {A} (r : result A) (Q : A → world → Prop) w :
  (∀ a, r = Ok a → Q a w) → wp (lift r) Q w.
Proof. unfold wp, lift. destruct r; auto. Qed.

Lemma wp_emit ev (Q : unit → world → Prop) w :
  Q () {| db := db w; events := events w ++ [ev] |} → wp (emit ev) Q w.
Proof. done. Qed.

Lemma wp_put t (Q : unit → world → Prop) w :
  Q () {| db := <[key_id t := t]> (db w); events := events w |} →
  wp (put t) Q w.
Proof. done. Qed.

Lemma wp_fetch testcase_id (Q : Testcase → world → Prop) w :
  (∀ t, db w !! testcase_id = Some t → Q t w) → wp (fetch testcase_id) Q w.
Proof.
  intros H. unfold wp, fetch, bind, get_testcase_by_id.
  destruct (db w !! testcase_id) as [t|] eqn:Hdb; simpl; auto.
Qed.

Lemma wp_set_metadata t key v (update : bool) (Q : Testcase → world → Prop) w :
  (let t' := with_metadata (<[key := v]> (metadata t)) t in
   Q t' (if update
         then {| db := <[key_id t := t']> (db w); events := events w |}
         else w)) →
  wp (set_metadata t key v update) Q w.
Proof. by destruct update. Qed.

Lemma wp_update_testcase_comment t state message
    (Q : Testcase → world → Prop) w :
  (let t' :=
     with_comments
       (comments t ++ [TaskState_name state +:+ ": " +:+ default "" message])
       t in
   Q t' {| db := <[key_id t := t']> (db w); events := events w |}) →
  wp (update_testcase_comment t state message) Q w.
Proof. done. Qed.

Lemma keyed_insert testcase_id k t (m : gmap Z Testcase) evs :
  k = testcase_id → key_id t = testcase_id →
  keyed testcase_id {| db := <[k := t]> m; events := evs |}.
Proof.
  intros -> Hk t'. cbn [db]. rewrite lookup_insert_eq. by intros [= <-].
Qed.

(** [_update_completion_metadata] writes back a testcase that has the key,
    the [fixed] and the [open] fields of the one it was given. *)
Lemma wp_update_completion_metadata t revision (crash : bool) message
    (Q : Testcase → world → Prop) w :
  (∀ t', key_id t' = key_id t → fixed t' = fixed t → open t' = open t →
         Q t' {| db := <[key_id t := t']> (db w); events := events w |}) →
  wp (_update_completion_metadata now t revision crash message) Q w.
Proof.
  intros H. unfold wp.
  pose proof (bind_update_completion_metadata t revision crash message ret w)
    as Hrun.
  cbv zeta in Hrun. unfold bind at 1 in Hrun.
  destruct (_update_completion_metadata _ _ _ _ _ w) as [[t'|e] w']; [|done].
  unfold ret in Hrun. injection Hrun as -> ->. by apply H.
Qed.

Lemma wp_testcase_reproduces t revision (Q : CrashResult → world → Prop) w :
  (∀ evs, Q (test_for_crash_with_retries revision)
            {| db := db w; events := events w ++ evs |}) →
  wp (_testcase_reproduces_in_revision app_path_set check_for_bad_build
        test_for_crash_with_retries t revision) Q w.
Proof.
  intros H. unfold _testcase_reproduces_in_revision.
  apply wp_bind, wp_emit.
  destruct (app_path_set _); cbn [negb]; [|apply wp_raise].
  destruct (check_for_bad_build _).
  - apply wp_bind, wp_fetch. intros t0 _.
    apply wp_bind, wp_update_testcase_comment. apply wp_raise.
  - apply wp_bind, wp_emit. unfold _log_output. apply wp_bind, wp_emit.
    apply wp_ret. cbn [db events]. rewrite <- !app_assoc. apply H.
Qed.

Lemma wp_except_testcase_reproduces t revision
    (Q : option CrashResult → world → Prop) w :
  (∀ evs, Q (Some (test_for_crash_with_retries revision))
            {| db := db w; events := events w ++ evs |}) →
  (∀ t0 t' evs, db w !! key_id t = Some t0 → key_id t' = key_id t0 →
     Q None {| db := <[key_id t0 := t']> (db w); events := events w ++ evs |}) →
  wp (except_BadBuildError
        (_testcase_reproduces_in_revision app_path_set check_for_bad_build
           test_for_crash_with_retries t revision)) Q w.
Proof.
  intros Hok Hbad. unfold wp, except_BadBuildError,
    _testcase_reproduces_in_revision.
  rewrite bind_emit.
  destruct (app_path_set _); cbn [negb]; [|done].
  destruct (check_for_bad_build _).
  - unfold bind at 1, fetch, bind at 1, get_testcase_by_id. cbn [db events].
    destruct (db w !! key_id t) as [t0|] eqn:Hdb; [|done].
    unfold ret. rewrite bind_update_testcase_comment. unfold raise.
    cbn [db events]. by apply Hbad.
  - rewrite bind_emit. unfold _log_output. rewrite bind_emit. unfold ret.
    cbn [db events]. rewrite <- !app_assoc. apply Hok.
Qed.

Lemma wp_save_current_fixed_range_indices testcase_id lo hi
    (Q : unit → world → Prop) w :
  keyed testcase_id w →
  (∀ w', keyed testcase_id w' → Q () w') →
  wp (_save_current_fixed_range_indices testcase_id lo hi) Q w.
Proof.
  intros Hk H. unfold _save_current_fixed_range_indices.
  apply wp_bind, wp_fetch. intros t Ht.
  apply wp_bind, wp_set_metadata. cbv zeta.
  apply wp_bind, wp_set_metadata. cbv zeta.
  apply wp_put. apply H. apply keyed_insert; cbn; by apply Hk.
Qed.

Lemma wp_save_fixed_range testcase_id a b (Q : unit → world → Prop) w :
  keyed testcase_id w →
  (∀ w' t', db w' !! testcase_id = Some t' →
            fixed t' = Py.fmt_d a +:+ ":" +:+ Py.fmt_d b →
            open t' = false → Q () w') →
  wp (_save_fixed_range now testcase_id a b) Q w.
Proof.
  intros Hk H. unfold _save_fixed_range.
  apply wp_bind, wp_fetch. intros t Ht.
  apply wp_bind, wp_update_completion_metadata. intros t' Hkey Hfixed Hopen.
  unfold _write_to_bigquery. apply wp_emit.
  apply (H _ t'); [|done..].
  cbn [db key_id with_open with_fixed]. rewrite (Hk t Ht).
  apply lookup_insert_eq.
Qed.

Lemma index_lookup {A} (l : list A) (i : Z) x :
  0 ≤ i → l !! Z.to_nat i = Some x → Py.index l i = Ok x.
Proof.
  intros Hi Hl. unfold Py.index. cbv zeta.
  apply lookup_lt_Some in Hl as Hlt.
  rewrite (decide_False (P := i < 0)) by lia.
  rewrite decide_True by lia. by rewrite Hl.
Qed.

Lemma index_Ok_lookup {A} (l : list A) (i : Z) x :
  0 ≤ i → Py.index l i = Ok x → l !! Z.to_nat i = Some x.
Proof.
  intros Hi. unfold Py.index. cbv zeta.
  rewrite (decide_False (P := i < 0)) by lia.
  case_decide; [|done]. by destruct (l !! Z.to_nat i); intros [= ->].
Qed.

Lemma bisect_correct (testcase_id : Z) (job : string) (all_revisions : list Z)
    (budget : nat) :
  ∀ revision_list min_index max_index w,
    keyed testcase_id w →
    revision_list `sublist_of` all_revisions →
    bisect_invariant test_for_crash_with_retries revision_list
      min_index max_index →
    wp (bisect now app_path_set check_for_bad_build
          test_for_crash_with_retries budget testcase_id job revision_list
          min_index max_index)
       (committed_range_ok test_for_crash_with_retries all_revisions
          testcase_id) w.
Proof.
  induction budget as [|budget IH];
    intros revision_list min_index max_index w Hkeyed Hsub Hinv.
  - cbn [bisect].
    apply wp_bind, wp_fetch. intros t Ht.
    apply wp_bind, wp_lift. intros lo _.
    apply wp_bind, wp_lift. intros hi _.
    apply wp_bind, wp_update_testcase_comment. cbv zeta.
    apply wp_bind, wp_emit. by apply wp_ret.
  - cbn [bisect].
    apply wp_bind, wp_lift. intros min_revision Hlo.
    apply wp_bind, wp_lift. intros max_revision Hhi.
    case_decide as Hadj.
    + (* the range is committed *)
      apply wp_bind, wp_save_fixed_range; [done|].
      intros w' t' Hdb' Hfixed' Hopen'. apply wp_ret.
      destruct Hinv as [Hrev|(H0 & Hlt & Hlen & (a & Ha & Hca) & (b & Hb & Hcb))];
        [lia|].
      rewrite (index_lookup _ _ _ H0 Ha) in Hlo.
      rewrite (index_lookup revision_list max_index b ltac:(lia) Hb) in Hhi.
      injection Hlo as <-. injection Hhi as <-.
      cbn. repeat split; try done; try lia.
      * by apply index_lookup.
      * apply index_lookup; [lia|done].
      * eauto.
    + (* the middle revision is tested *)
      set (middle_index := (min_index + max_index) `div` 2).
      assert (Hmid : 2 * middle_index ≤ min_index + max_index
                     < 2 * middle_index + 2).
      { subst middle_index.
        pose proof (Z.div_mod (min_index + max_index) 2 ltac:(lia)).
        pose proof (Z.mod_pos_bound (min_index + max_index) 2 ltac:(lia)).
        lia. }
      apply wp_bind, wp_lift. intros middle_revision Hmi.
      apply wp_bind, wp_fetch. intros t Ht.
      apply wp_bind, wp_update_testcase_comment. cbv zeta.
      apply wp_bind, wp_except_testcase_reproduces.
      * (* a test result *)
        intros evs.
        set (result := test_for_crash_with_retries middle_revision).
        apply wp_bind, wp_lift. intros lo Hlo'.
        apply wp_bind, wp_lift. intros hi Hhi'.
        apply wp_bind, wp_save_current_fixed_range_indices.
        { apply keyed_insert; cbn; by apply Hkeyed. }
        intros w' Hkeyed'. apply IH; [done|done|].
        destruct Hinv as [Hrev|(H0 & Hlt & Hlen & (a & Ha & Hca) & (b & Hb & Hcb))].
        { left. destruct (is_crash result); lia. }
        right.
        assert (Hm : revision_list !! Z.to_nat middle_index
                     = Some middle_revision).
        { apply index_Ok_lookup; [lia|done]. }
        destruct (is_crash result) eqn:Hres.
        -- repeat split; try lia; eauto.
        -- repeat split; try lia; eauto.
      * (* a bad build: the revision is dropped *)
        intros t0 t1 evs Ht0 Hkey1.
        apply wp_bind, wp_lift. intros revision_list' Hdel.
        unfold Py.del in Hdel.
        apply IH.
        -- cbn [db key_id with_comments] in Ht0.
           rewrite lookup_insert_eq in Ht0. injection Ht0 as <-.
           cbn [key_id with_comments] in *.
           apply keyed_insert; [by apply Hkeyed|].
           rewrite Hkey1. by apply Hkeyed.
        -- case_decide; [|done]. injection Hdel as <-.
           etrans; [apply sublist_delete|done].
        -- destruct Hinv as [Hrev|(H0 & Hlt & Hlen & (a & Ha & Hca) & (b & Hb & Hcb))];
             [left; lia|].
           right. cbv zeta in Hdel.
           rewrite (decide_False (P := middle_index < 0)) in Hdel by lia.
           rewrite decide_True in Hdel by lia. injection Hdel as <-.
           rewrite length_delete by (apply lookup_lt_is_Some; lia).
           repeat split; try lia.
           ++ exists a. split; [|done].
              rewrite list_lookup_delete_lt by lia. done.
           ++ exists b. split; [|done].
              rewrite list_lookup_delete_ge by lia.
              replace (S (Z.to_nat (max_index - 1))) with (Z.to_nat max_index)
                by lia. done.
Qed.


Lemma find_revision_index_Some revision_list revision i :
  find_revision_index revision_list revision = Some i →
  0 ≤ i ∧ i < Z.of_nat (length revision_list)
  ∧ revision_list !! Z.to_nat i = Some revision.
Proof.
  revert i. induction revision_list as [|r rl IH]; intros i; [done|].
  cbn [find_revision_index]. case_decide as Hr.
  - intros [= <-]. subst. cbn. split; [lia|]. split; [lia|done].
  - destruct (find_revision_index rl revision) as [j|]; [|done].
    intros [= <-]. destruct (IH j eq_refl) as (H0 & Hlt & Hl).
    cbn [length]. split; [lia|]. split; [lia|].
    replace (Z.to_nat (Z.succ j)) with (S (Z.to_nat j)) by lia. done.
Qed.

(** One step of the symbolic run of a computation towards its normal
    returns. *)
Ltac wp_step :=
  lazymatch goal with
  | |- wp (bind _ _) _ _ => apply wp_bind
  | |- wp (ret _) _ _ => apply wp_ret
  | |- wp (raise _) _ _ => apply wp_raise
  | |- wp (emit _) _ _ => apply wp_emit
  | |- wp (put _) _ _ => apply wp_put
  | |- wp (fetch _) _ _ => apply wp_fetch; intros ? ?
  | |- wp (lift _) _ _ => apply wp_lift; intros ? ?
  | |- wp (set_metadata _ _ _ _) _ _ => apply wp_set_metadata; cbv zeta
  | |- wp (delete_metadata _ _ _) _ _ => unfold delete_metadata
  | |- wp (update_testcase_comment _ _ _) _ _ =>
      apply wp_update_testcase_comment; cbv zeta
  | |- wp (_update_completion_metadata _ _ _ _ _) _ _ =>
      apply wp_update_completion_metadata; intros ? ? ? ?
  | |- wp (_clear_progression_pending _) _ _ =>
      unfold _clear_progression_pending
  | |- wp (is_first_retry_for_task _ _) _ _ => unfold is_first_retry_for_task
  | |- wp (mark_unreproducible_if_flaky _ _) _ _ =>
      unfold mark_unreproducible_if_flaky
  | |- wp (_log_output _ _) _ _ => unfold _log_output
  | |- wp (_testcase_reproduces_in_revision _ _ _ _ _) _ _ =>
      apply wp_testcase_reproduces; intros ?
  | |- wp (match decide ?P with left _ => _ | right _ => _ end) _ _ =>
      destruct (decide P)
  | |- wp (if ?b then _ else _) _ _ => destruct b eqn:?
  | |- wp (match ?o with Some _ => _ | None => _ end) _ _ => destruct o eqn:?
  end.

(** The custom-binary check never commits a range. *)
Lemma wp_check_fixed_for_custom_binary t job (Q : outcome → world → Prop) w :
  (∀ out w', (∀ a b rl mi ma, out ≠ Fixed a b rl mi ma) → Q out w') →
  wp (_check_fixed_for_custom_binary now FAIL_WAIT APP_REVISION app_path_set
        custom_binary_result t job) Q w.
Proof.
  intros H. unfold _check_fixed_for_custom_binary.
  repeat wp_step; by apply H.
Qed.

Lemma find_fixed_range_wp (testcase_id : Z) (job : string) (w : world) :
  keyed testcase_id w →
  wp (find_fixed_range testcase_id job)
     (committed_range_ok test_for_crash_with_retries get_revisions_list
        testcase_id) w.
Proof.
  intros Hkeyed. unfold Progression.find_fixed_range.
  apply wp_bind.
  change (wp (get_testcase_by_id testcase_id) ?Q w)
    with (Q (db w !! testcase_id) w). cbv beta.
  destruct (db w !! testcase_id) as [t|] eqn:Hdb; [|by apply wp_ret].
  pose proof (Hkeyed t Hdb) as Hkey.
  wp_step; [by repeat wp_step|].
  wp_step; [|by repeat wp_step].
  do 2 wp_step.
  wp_step.
  { apply wp_check_fixed_for_custom_binary. intros out w' Hout.
    destruct out; try done. by destruct (Hout min_revision max_revision
                                           revision_list min_index max_index). }
  wp_step; [by repeat wp_step|].
  wp_step; [|by repeat wp_step].
  wp_step; [|by repeat wp_step].
  do 6 wp_step.
  wp_step; [by repeat wp_step|].
  do 4 wp_step.
  wp_step; [by repeat wp_step|].
  match goal with
  | H : db _ !! testcase_id = Some ?t0 |- _ =>
      cbn [db] in H; rewrite Hkey, lookup_insert_eq in H; injection H as <-
  end.
  apply bisect_correct.
  - cbn [db events key_id with_metadata with_comments].
    by apply keyed_insert.
  - done.
  - match goal with
    | Hmin : find_min_revision_index _ _ = Some _,
      Hmax : find_max_revision_index _ _ = Some _ |- _ =>
        apply find_revision_index_Some in Hmin as (Hmin0 & Hminl & Hmina);
        apply find_revision_index_Some in Hmax as (Hmax0 & Hmaxl & Hmaxa)
    end.
    match goal with
    | |- bisect_invariant _ _ ?mi ?ma => destruct (decide (ma ≤ mi))
    end; [by left|right].
    repeat split; try lia; eauto.
    eexists. split; [done|]. by apply negb_false_iff.
Qed.


(** C1: when [find_fixed_range] commits a fixed range [a:b], the crash
    reproduces at revision [a] and does not reproduce at revision [b], and
    [a] and [b] sit at adjacent indices of the working revision list (the
    list of revisions less the bad builds removed so far) at the call of
    [_save_fixed_range], which stores ["a:b"] in [fixed] and closes the
    testcase. *)
Theorem find_fixed_range_bisection_correct (testcase_id : Z) (job : string)
    (w w' : world) (a b : Z) (revision_list : list Z)
    (min_index max_index : Z) :
  keyed testcase_id w →
  find_fixed_range testcase_id job w =
    (Ok (Fixed a b revision_list min_index max_index), w') →
  is_crash (test_for_crash_with_retries a) = true
  ∧ is_crash (test_for_crash_with_retries b) = false
  ∧ Py.index revision_list min_index = Ok a
  ∧ Py.index revision_list max_index = Ok b
  ∧ 0 ≤ min_index
  ∧ max_index = min_index + 1
  ∧ revision_list `sublist_of` get_revisions_list
  ∧ ∃ t, db w' !! testcase_id = Some t
         ∧ fixed t = Py.fmt_d a +:+ ":" +:+ Py.fmt_d b
         ∧ open t = false.
Proof.
  intros Hkeyed Hrun.
  pose proof (find_fixed_range_wp testcase_id job w Hkeyed) as Hwp.
  unfold wp in Hwp. rewrite Hrun in Hwp. exact Hwp.
Qed.

End progression.

(* ------------------------------------------------------------------ *)
(** ** The crash line of the engine log *)
(* ------------------------------------------------------------------ *)

Section crash_path.
Import Regex Launcher LibFuzzerEngine.

(** *** The greedy star *)

Lemma star_sound {R} p s (k : list ascii → option R) r :
  star p s k = Some r →
  ∃ s1 s2, s = s1 ++ s2 ∧ Forall (λ c, p c = true) s1 ∧ k s2 = Some r.
Proof.
  induction s as [|c s IH]; cbn [star].
  - intros Hk. exists [], []. by repeat split.
  - destruct (p c) eqn:Hc.
    + destruct (star p s k) as [r'|] eqn:Hs.
      * intros [= ->]. destruct (IH eq_refl) as (s1 & s2 & -> & Hp & Hk).
        exists (c :: s1), s2. repeat split; [|done]. by constructor.
      * intros Hk. exists [], (c :: s). by repeat split.
    + intros Hk. exists [], (c :: s). by repeat split.
Qed.

Lemma star_none {R} p s (k : list ascii → option R) :
  (∀ s1 s2, s = s1 ++ s2 → Forall (λ c, p c = true) s1 → k s2 = None) →
  star p s k = None.
Proof.
  induction s as [|c s IH]; intros H; cbn [star].
  - by apply (H [] []).
  - destruct (p c) eqn:Hc; [|by apply (H [] (c :: s))].
    rewrite IH; [by apply (H [] (c :: s))|].
    intros s1 s2 -> Hp. apply (H (c :: s1) s2); [done|by constructor].
Qed.

(** The star stops at the longest prefix after which the rest of the
    pattern succeeds. *)
Lemma star_greedy {R} p s1 s2 (k : list ascii → option R) r :
  Forall (λ c, p c = true) s1 →
  k s2 = Some r →
  (∀ t1 t2, s2 = t1 ++ t2 → t1 ≠ [] → Forall (λ c, p c = true) t1 →
            k t2 = None) →
  star p (s1 ++ s2) k = Some r.
Proof.
  intros Hp Hk Hlater. induction Hp as [|c s1 Hc _ IH]; cbn [app star].
  - destruct s2 as [|c s2]; [done|]. cbn [star].
    destruct (p c) eqn:Hc; [|done].
    rewrite star_none; [done|].
    intros t1 t2 -> Ht1. apply (Hlater (c :: t1) t2); [done|done|].
    by constructor.
  - by rewrite Hc, IH.
Qed.

Lemma star_all {R} p s (k : list ascii → option R) :
  Forall (λ c, p c = true) s → is_Some (k []) → star p s k = k [].
Proof.
  intros Hp [r Hr]. induction Hp as [|c s Hc _ IH]; [done|].
  cbn [star]. by rewrite Hc, IH, Hr.
Qed.

Lemma star_some {R} p s1 s2 (k : list ascii → option R) :
  Forall (λ c, p c = true) s1 → is_Some (k s2) →
  is_Some (star p (s1 ++ s2) k).
Proof.
  intros Hp Hk. induction Hp as [|c s1 Hc _ IH]; cbn [app star].
  - destruct s2 as [|c s2]; [done|]. cbn [star].
    destruct (p c); [|done]. by destruct (star p s2 k).
  - rewrite Hc. destruct IH as [r ->]. eauto.
Qed.

(** *** Literals *)

Lemma strip_lit_Some l s s' : strip_lit l s = Some s' → s = l ++ s'.
Proof.
  revert s. induction l as [|a l IH]; intros s; cbn [strip_lit].
  - by intros [= ->].
  - destruct s as [|b s]; [done|].
    destruct (Ascii.eqb a b) eqn:Hab; [|done].
    apply Ascii.eqb_eq in Hab as ->. intros H. by rewrite (IH _ H).
Qed.

Lemma strip_lit_app l s : strip_lit l (l ++ s) = Some s.
Proof.
  induction l as [|a l IH]; [done|].
  cbn [app strip_lit]. by rewrite Ascii.eqb_refl.
Qed.

(** *** What a successful run hands to the rest of the pattern *)

Lemma run_sound r : ∀ s cs k res,
  run r s cs k = Some res →
  ∃ s' cs', s' `suffix_of` s ∧ k s' cs' = Some res.
Proof.
  induction r as [l|p|p|r1 IH1 r2 IH2|r1 IH1 r2 IH2|n r1 IH1];
    intros s cs k res; cbn [run].
  - destruct (strip_lit l s) as [s'|] eqn:Hl; [|done].
    intros Hk. apply strip_lit_Some in Hl as ->.
    exists s', cs. split; [by apply suffix_app_r|done].
  - destruct s as [|c s]; [done|]. destruct (p c); [|done].
    intros Hk. exists s, cs. split; [by apply suffix_cons_r|done].
  - intros Hs. apply star_sound in Hs as (s1 & s2 & -> & _ & Hk).
    exists s2, cs. split; [by apply suffix_app_r|done].
  - destruct (run r1 s cs k) as [x|] eqn:H1.
    + intros [= ->]. by apply IH1 in H1.
    + intros H2. by apply IH2 in H2.
  - intros H. apply IH1 in H as (s1 & cs1 & Hs1 & H).
    apply IH2 in H as (s2 & cs2 & Hs2 & H).
    exists s2, cs2. split; [by etrans|done].
  - intros H. apply IH1 in H as (s1 & cs1 & Hs1 & H). eauto.
Qed.

(** *** The crash pattern *)

Lemma not_space_is_dot c : not_space c = true → is_dot c = true.
Proof.
  unfold not_space, is_space, is_dot. rewrite !negb_true_iff.
  rewrite !bool_decide_eq_false. tauto.
Qed.

Lemma Forall_not_space_is_dot s :
  Forall (λ c, not_space c = true) s → Forall (λ c, is_dot c = true) s.
Proof. intros H. eapply Forall_impl; [exact H|]. apply not_space_is_dot. Qed.

(** Group 1 of a successful match of the path pattern is all of the text
    it was run on, when that text has no line feed. *)
Lemma crash_path_group_all X m :
  Forall (λ c, is_dot c = true) X →
  run crash_path_group X [] (λ _ cs, Some cs) = Some m →
  group 1 m = Some X.
Proof.
  intros HX Hrun.
  change (run crash_path_group X [] (λ _ cs, Some cs))
    with (run (Seq (Star is_dot)
                 (Seq (Group 2 (Alt (Lit (chars "crash"))
                               (Alt (Lit (chars "oom"))
                               (Alt (Lit (chars "timeout"))
                                    (Lit (chars "leak"))))))
                      (Lit (chars "-"))))
            X []
            (λ s' cs', star is_dot s'
               (λ s'', Some ((1%nat, take (length X - length s'') X) :: cs'))))
    in Hrun.
  apply run_sound in Hrun as (s' & cs' & Hsuf & Hstar).
  rewrite star_all in Hstar.
  - injection Hstar as <-. cbn. by rewrite Nat.sub_0_r, firstn_all.
  - destruct Hsuf as [pre ->]. by apply Forall_app in HX as [_ ?].
  - eauto.
Qed.

(** The path pattern matches a text without line feed that holds one of
    the four markers followed by a dash. *)
Lemma crash_path_group_some X1 marker X2 :
  marker ∈ [chars "crash"; chars "oom"; chars "timeout"; chars "leak"] →
  Forall (λ c, is_dot c = true) X1 →
  Forall (λ c, is_dot c = true) X2 →
  is_Some (run crash_path_group (X1 ++ marker ++ chars "-" ++ X2) []
             (λ _ cs, Some cs)).
Proof.
  intros Hm H1 H2. cbn [crash_path_group seq_of run].
  apply star_some; [done|].
  assert (∀ k : list ascii → option captures,
            is_Some (k []) → is_Some (star is_dot X2 k)) as Hlast.
  { intros k Hk. replace X2 with (X2 ++ []) by apply app_nil_r.
    by apply star_some. }
  repeat (apply elem_of_cons in Hm as [->|Hm]); [..|by apply elem_of_nil in Hm];
    cbn;
    match goal with
    | |- context [star is_dot X2 ?k] =>
        destruct (Hlast k) as [x ->]; [eauto|cbn; eauto]
    end.
Qed.

(** No occurrence of the literal starts inside white space followed by
    text without white space. *)
Lemma no_literal_in_tail ws X t1 t2 :
  Forall (λ c, is_space c = true) ws →
  Forall (λ c, not_space c = true) X →
  ws ++ X = t1 ++ t2 →
  strip_lit (chars "Test unit written to") t2 = None.
Proof.
  intros Hws HX. revert t1 t2.
  induction Hws as [|c ws Hc _ IH]; intros t1 t2 Heq.
  - cbn [app] in Heq. subst X. apply Forall_app in HX as [_ HX].
    destruct (strip_lit _ t2) as [rest|] eqn:Hs; [|done].
    apply strip_lit_Some in Hs as ->. exfalso.
    cbn in HX. do 4 apply Forall_cons in HX as [_ HX].
    apply Forall_cons in HX as [HX _]. vm_compute in HX. discriminate.
  - destruct t1 as [|c' t1].
    + cbn [app] in Heq. subst t2.
      change (chars "Test unit written to")
        with ("T"%char :: chars "est unit written to").
      cbn [strip_lit]. destruct (Ascii.eqb "T" c) eqn:Hc'; [|done].
      apply Ascii.eqb_eq in Hc' as <-. vm_compute in Hc. discriminate.
    + injection Heq as _ Heq. by apply (IH t1).
Qed.

(** After the literal, no later occurrence of it can start. *)
Lemma no_later_literal ws X t1 t2 :
  Forall (λ c, is_space c = true) ws →
  Forall (λ c, not_space c = true) X →
  chars "Test unit written to" ++ ws ++ X = t1 ++ t2 →
  t1 ≠ [] →
  strip_lit (chars "Test unit written to") t2 = None.
Proof.
  intros Hws HX Heq Hne.
  destruct t1 as [|c t1]; [done|]. clear Hne.
  cbn in Heq. injection Heq as _ Heq.
  do 19 (destruct t1 as [|? t1];
         [cbn [app] in Heq; subst t2; reflexivity|injection Heq as _ Heq]).
  by apply (no_literal_in_tail ws X t1 t2).
Qed.

(** The crash pattern matches a line made of any text without line feed,
    the literal, white space, and a path without white space that holds a
    marker; group 1 is the path. *)
Lemma crash_regex_match pre ws X1 marker X2 :
  let X := X1 ++ marker ++ chars "-" ++ X2 in
  Forall (λ c, is_dot c = true) pre →
  Forall (λ c, is_space c = true) ws →
  Forall (λ c, not_space c = true) X →
  marker ∈ [chars "crash"; chars "oom"; chars "timeout"; chars "leak"] →
  ∃ m, re_match CRASH_TESTCASE_REGEX
         (str (pre ++ chars "Test unit written to" ++ ws ++ X)) = Some m
       ∧ match_group 1 m = str X.
Proof.
  intros X Hpre Hws HX Hm.
  pose proof (Forall_not_space_is_dot X HX) as HXdot.
  destruct (crash_path_group_some X1 marker X2 Hm) as [m Hrun].
  { by apply Forall_app in HXdot as [? _]. }
  { apply Forall_app in HXdot as [_ H]. apply Forall_app in H as [_ H].
    by apply Forall_app in H as [_ ?]. }
  fold X in Hrun.
  exists m. split.
  - unfold re_match, chars at 1, str.
    rewrite String.list_ascii_of_string_of_list_ascii.
    cbn [CRASH_TESTCASE_REGEX seq_of run].
    apply star_greedy; [done| |].
    + rewrite strip_lit_app.
      apply star_greedy; [done|done|].
      intros t1 t2 Heq Hne Ht1. exfalso.
      destruct t1 as [|c t1]; [done|].
      rewrite Heq in HX. apply Forall_cons in HX as [Hc _].
      apply Forall_cons in Ht1 as [Hc' _].
      unfold not_space in Hc. by rewrite Hc' in Hc.
    + intros t1 t2 Heq Hne _.
      by rewrite (no_later_literal ws X t1 t2).
  - unfold match_group. by rewrite (crash_path_group_all X m).
Qed.

(** A line that matches the crash pattern contains the literal. *)
Lemma crash_regex_needs_literal line m :
  re_match CRASH_TESTCASE_REGEX line = Some m →
  ∃ pre rest, chars line = pre ++ chars "Test unit written to" ++ rest.
Proof.
  unfold re_match. cbn [CRASH_TESTCASE_REGEX seq_of run].
  intros H. apply star_sound in H as (s1 & s2 & Heq & _ & H).
  destruct (strip_lit _ s2) as [rest|] eqn:Hs; [|done].
  apply strip_lit_Some in Hs as ->. eauto.
Qed.

Lemma find_crash_testcase_file_path_first before line after m :
  Forall (λ l, re_match CRASH_TESTCASE_REGEX l = None) before →
  re_match CRASH_TESTCASE_REGEX line = Some m →
  find_crash_testcase_file_path (before ++ line :: after)
  = Some (match_group 1 m).
Proof.
  intros Hb Hl.
  induction Hb as [|l before Hn _ IH];
    cbn [app find_crash_testcase_file_path].
  - by rewrite Hl.
  - by rewrite Hn.
Qed.

Lemma find_crash_testcase_file_path_none log_lines :
  Forall (λ l, re_match CRASH_TESTCASE_REGEX l = None) log_lines →
  find_crash_testcase_file_path log_lines = None.
Proof.
  induction 1 as [|l ls Hn _ IH]; cbn [find_crash_testcase_file_path];
    [done|by rewrite Hn].
Qed.

End crash_path.

(* ------------------------------------------------------------------ *)
(** ** A fuzz session: [LibFuzzerEngine.fuzz] *)
(* ------------------------------------------------------------------ *)

Section fuzz_session.
Import Regex Shell Constants Launcher LibFuzzerCommon LibFuzzerEngine.

Variable temp_dir : string.
Variable run_and_wait : runner.
Variable env : EngineCommon.environment.
Variable extract_argument :
  list string → string → bool → option string * list string.
Variable parse_performance_features :
  list string → list string → list string → stats.
Variable parse_stats_from_merge_log : list string → stats.

(** The corpus only grows when units are moved into it. *)
Lemma move_mergeable_units_size (merge corpus : directory) :
  (size corpus ≤ size (move_mergeable_units merge corpus).2)%nat.
Proof.
  rewrite <- !size_dom. apply subseteq_size. intros n Hn.
  apply elem_of_dom in Hn as [d Hd]. apply elem_of_dom.
  destruct (move_mergeable_units_spec merge corpus n) as (H2 & _ & _).
  cbv zeta in H2. rewrite H2.
  destruct (_ && _); [by rewrite Hd|].
  destruct (merge !! n); [done|by rewrite Hd].
Qed.

(** [_merge_new_units] returns, and sets [new_units_added]. *)
Lemma merge_new_units_returns (corpus_dir new_corpus_dir : string)
    (fuzz_corpus_dirs arguments : list string) (stat_overrides : stats)
    (fs : filesystem) (merge_timeout : Z) :
  EngineCommon.get_merge_timeout env DEFAULT_MERGE_TIMEOUT = Ok merge_timeout →
  ∃ stats' fs' n,
    _merge_new_units temp_dir run_and_wait env parse_stats_from_merge_log
      corpus_dir new_corpus_dir fuzz_corpus_dirs arguments stat_overrides fs
    = Ok (stats', fs')
    ∧ stats' !! "new_units_added" = Some (IntStat n)
    ∧ ((∀ lines, parse_stats_from_merge_log lines !! "new_units_generated"
                 = None) →
       stats' !! "new_units_generated"
       = stat_overrides !! "new_units_generated")
    ∧ (corpus_dir ≠ join temp_dir "merge-workdir" →
       (∀ args t fs0, ls (run_and_wait args t fs0).2 corpus_dir
                      = ls fs0 corpus_dir) →
       0 ≤ n).
Proof.
  intros Hmt. unfold _merge_new_units.
  case_decide as Hnew.
  { eexists _, _, 0. split; [reflexivity|]. rewrite lookup_insert_eq.
    split; [done|]. split; [|done]. intros _. by rewrite lookup_insert_ne. }
  cbn [_create_temp_corpus_dir]. cbv zeta. rewrite Hmt. cbn [mbind result_bind Py.bind].
  unfold minimize_corpus, merge. cbn [_create_temp_corpus_dir].
  match goal with
  | |- context [decide (corpus_dir ∈ ?l)] =>
      destruct (decide (corpus_dir ∈ l)) as [_|_]
  end.
  all: match goal with
  | |- context [run_and_wait ?a ?t ?f] =>
      pose proof (eq_refl (run_and_wait a t f)) as Hrun;
      destruct (run_and_wait a t f) as [merge_result fs2] in Hrun at 2 |- *
  end.
  all: destruct (timed_out merge_result).
  all: try by (eexists _, _, 0; split; [reflexivity|];
               rewrite lookup_insert_eq; split; [done|]; split; [|done];
               intros _; by rewrite lookup_insert_ne).
  all: destruct (decide (return_code merge_result ≠ 0)) as [Hrc|Hrc].
  all: try by (eexists _, _, 0; split; [reflexivity|];
               rewrite lookup_insert_eq; split; [done|]; split; [|done];
               intros _; by rewrite lookup_insert_ne).
  all: eexists _, _, _; (split; [reflexivity|]); rewrite lookup_insert_eq;
    (split; [done|]); split.
  all: try (intros Hpm; rewrite lookup_insert_ne by done;
            cbn [Engine.logs]; case_decide; [|done];
            unfold update; rewrite lookup_union, Hpm;
            by destruct (stat_overrides !! _)).
  all: intros Hne Hframe;
    unfold get_directory_file_count, move_mergeable_units_at,
      EngineCommon.recreate_directory;
    set (merge_corpus := join temp_dir "merge-corpus");
    set (workdir := join temp_dir "merge-workdir");
    fold merge_corpus workdir in Hrun;
    assert (ls fs2 corpus_dir
            = ls (<[merge_corpus := ∅]> fs) corpus_dir) as Hls
      by (match type of Hrun with
          | run_and_wait ?a ?t ?f = _ => pose proof (Hframe a t f) as Hf
          end;
          rewrite Hrun in Hf; cbn [snd] in Hf; rewrite Hf;
          unfold ls, EngineCommon.recreate_directory;
          by rewrite (lookup_insert_ne _ workdir) by (subst workdir; done));
    unfold ls at 1; rewrite lookup_insert_eq; cbn [default];
    pose proof (move_mergeable_units_size (ls fs2 merge_corpus)
                  (ls fs2 corpus_dir)) as Hsize;
    rewrite Hls in Hsize at 1; unfold id; lia.
Qed.

(** [fuzz] returns a result when the time budgets are positive and the
    arguments carry a numeric [-timeout=]; the lemma gives the crash list
    and the two unit counters of that result. *)
Lemma fuzz_returns (options : LibFuzzerOptions) (reproducers_dir : string)
    (max_time : Z) (fs : filesystem)
    (fuzz_timeout merge_timeout timeout_limit : Z) (v : string) :
  let additional_args := arguments options ++ [_artifact_prefix reproducers_dir] in
  let max_total_time :=
    if existsb (λ arg, Py.startswith arg FORK_FLAG) additional_args
    then get_max_total_time fuzz_timeout - LIBFUZZER_FORK_MODE_CLEAN_EXIT_TIME
    else get_max_total_time fuzz_timeout in
  let new_corpus_dir := join temp_dir "new" in
  let command_line :=
    additional_args
    ++ [MAX_TOTAL_TIME_FLAG +:+ Py.fmt_d max_total_time;
        PRINT_FINAL_STATS_ARGUMENT]
    ++ [new_corpus_dir] ++ fuzz_corpus_dirs options in
  let fuzz_run :=
    run_and_wait command_line (fuzz_timeout - SIGTERM_WAIT_TIME)
      (<[new_corpus_dir := ∅]> fs) in
  let log_lines := Py.splitlines (output fuzz_run.1) in
  get_fuzz_timeout env (is_mutations_run options) max_time = Ok fuzz_timeout →
  max_total_time > 0 →
  (extract_argument (arguments options) TIMEOUT_FLAG false).1 = Some v →
  Py.int v = Ok timeout_limit →
  EngineCommon.get_merge_timeout env DEFAULT_MERGE_TIMEOUT = Ok merge_timeout →
  ∃ r fs' n,
    fuzz temp_dir run_and_wait env extract_argument
      parse_performance_features parse_stats_from_merge_log
      options reproducers_dir max_time fs = Ok (r, fs')
    ∧ Engine.crashes r =
        match find_crash_testcase_file_path log_lines with
        | Some path =>
            if decide (path ≠ "") then
              [ {| Engine.input_path := path;
                   Engine.stacktrace := Py.join_lines log_lines;
                   Engine.reproduce_args :=
                     remove_fuzzing_arguments extract_argument
                       (arguments options);
                   Engine.crash_time := time_executed fuzz_run.1 |} ]
            else []
        | None => []
        end
    ∧ Engine.stats r !! "new_units_added" = Some (IntStat n)
    ∧ ((∀ lines, parse_stats_from_merge_log lines !! "new_units_generated"
                 = None) →
       (∀ lines s a, parse_performance_features lines s a
                     !! "new_units_generated" = None) →
       Engine.stats r !! "new_units_generated"
       = IntStat <$> parse_log_stats log_lines !! "new_units_generated")
    ∧ (corpus_dir options ≠ join temp_dir "merge-workdir" →
       (∀ args t fs0, ls (run_and_wait args t fs0).2 (corpus_dir options)
                      = ls fs0 (corpus_dir options)) →
       0 ≤ n).
Proof.
  intros additional_args max_total_time new_corpus_dir command_line fuzz_run
    log_lines Hft Hmtt Hextract Hint Hmt.
  unfold fuzz. cbn [_create_temp_corpus_dir]. rewrite Hft.
  cbn [mbind result_bind Py.bind].
  unfold LibFuzzerCommon.fuzz. fold additional_args max_total_time.
  rewrite decide_True by done. cbn [mbind result_bind Py.bind].
  unfold EngineCommon.recreate_directory. fold new_corpus_dir.
  change ([new_corpus_dir] ++ fuzz_corpus_dirs options)
    with (new_corpus_dir :: fuzz_corpus_dirs options) in *.
  fold command_line fuzz_run.
  destruct fuzz_run as [fuzz_result fs1] eqn:Hrun. cbn [fst snd] in *.
  fold log_lines.
  rewrite decide_False; last first.
  { subst max_total_time. unfold LIBFUZZER_FORK_MODE_CLEAN_EXIT_TIME in Hmtt.
    destruct (existsb _ _); lia. }
  rewrite Hextract, Hint. cbn [mbind result_bind Py.bind].
  match goal with
  | |- context [_merge_new_units _ _ _ _ ?c ?nd ?fd ?a ?st ?f] =>
      destruct (merge_new_units_returns c nd fd a st f merge_timeout Hmt)
        as (stats' & fs' & n & Hmerge & Hadded & Hgen & Hn)
  end.
  rewrite Hmerge. cbn [mbind result_bind Py.bind].
  eexists _, fs', n. split; [reflexivity|]. cbn [Engine.crashes Engine.stats].
  split; [done|]. split; [done|]. split; [|done].
  intros Hpm Hpf. rewrite (Hgen Hpm). unfold update.
  rewrite lookup_union, !lookup_insert_ne, lookup_empty by done.
  rewrite lookup_union, Hpf, lookup_fmap.
  by destruct (parse_log_stats log_lines !! _).
Qed.

Lemma forallb_Forall_true {A} (f : A → bool) (l : list A) :
  forallb f l = true → Forall (λ c, f c = true) l.
Proof.
  induction l as [|a l IH]; cbn [forallb]; [by constructor|].
  intros [Ha Hl]%andb_true_iff. constructor; auto.
Qed.

Lemma contains_false l s pre rest :
  contains l s = false → s ≠ pre ++ l ++ rest.
Proof.
  revert s. induction pre as [|c pre IH]; intros s Hc ->.
  - cbn [app] in Hc. destruct (l ++ rest) eqn:E;
      cbn [contains] in Hc; rewrite <- ?E, strip_lit_app in Hc; done.
  - cbn [app contains] in Hc.
    destruct (strip_lit l _); [done|]. by apply (IH _ Hc).
Qed.

Lemma no_literal_no_match line :
  contains (chars "Test unit written to") (chars line) = false →
  re_match CRASH_TESTCASE_REGEX line = None.
Proof.
  intros Hc. destruct (re_match _ line) as [m|] eqn:Hm; [|done].
  apply crash_regex_needs_literal in Hm as (pre & rest & Heq).
  by apply contains_false with (pre := pre) (rest := rest) in Hc.
Qed.

(** C5 (amended): [fuzz] returns a result whose crash list is decided by
    the first line of the engine log that matches [CRASH_TESTCASE_REGEX].
    When the first line that contains "Test unit written to" is made of any
    text, that literal, white space, and a path [X] free of white space that
    contains one of [crash-], [oom-], [timeout-] and [leak-], the crash
    list has exactly one entry and its input path is [X]; when no line
    contains the literal, the crash list is empty. *)
Theorem fuzz_crash_path_extraction (options : LibFuzzerOptions)
    (reproducers_dir : string) (max_time : Z) (fs : filesystem)
    (fuzz_timeout merge_timeout timeout_limit : Z) (v : string) :
  let additional_args := arguments options ++ [_artifact_prefix reproducers_dir] in
  let max_total_time :=
    if existsb (λ arg, Py.startswith arg FORK_FLAG) additional_args
    then get_max_total_time fuzz_timeout - LIBFUZZER_FORK_MODE_CLEAN_EXIT_TIME
    else get_max_total_time fuzz_timeout in
  let new_corpus_dir := join temp_dir "new" in
  let command_line :=
    additional_args
    ++ [MAX_TOTAL_TIME_FLAG +:+ Py.fmt_d max_total_time;
        PRINT_FINAL_STATS_ARGUMENT]
    ++ [new_corpus_dir] ++ fuzz_corpus_dirs options in
  let fuzz_run :=
    run_and_wait command_line (fuzz_timeout - SIGTERM_WAIT_TIME)
      (<[new_corpus_dir := ∅]> fs) in
  let log_lines := Py.splitlines (output fuzz_run.1) in
  let literal := chars "Test unit written to" in
  get_fuzz_timeout env (is_mutations_run options) max_time = Ok fuzz_timeout →
  max_total_time > 0 →
  (extract_argument (arguments options) TIMEOUT_FLAG false).1 = Some v →
  Py.int v = Ok timeout_limit →
  EngineCommon.get_merge_timeout env DEFAULT_MERGE_TIMEOUT = Ok merge_timeout →
  ∃ r fs',
    fuzz temp_dir run_and_wait env extract_argument
      parse_performance_features parse_stats_from_merge_log
      options reproducers_dir max_time fs = Ok (r, fs')
    ∧ (∀ before after pre ws X1 marker X2,
         let X := X1 ++ marker ++ chars "-" ++ X2 in
         log_lines = before ++ str (pre ++ literal ++ ws ++ X) :: after →
         forallb (λ l, negb (contains literal (chars l))) before = true →
         forallb is_dot pre = true →
         forallb is_space ws = true →
         forallb not_space X = true →
         marker ∈ [chars "crash"; chars "oom"; chars "timeout"; chars "leak"] →
         ∃ crash, Engine.crashes r = [crash]
                  ∧ Engine.input_path crash = str X)
    ∧ (forallb (λ l, negb (contains literal (chars l))) log_lines = true →
       Engine.crashes r = []).
Proof.
  intros additional_args max_total_time new_corpus_dir command_line fuzz_run
    log_lines literal Hft Hmtt Hextract Hint Hmt.
  destruct (fuzz_returns options reproducers_dir max_time fs fuzz_timeout
              merge_timeout timeout_limit v Hft Hmtt Hextract Hint Hmt)
    as (r & fs' & n & Hfuzz & Hcrashes & _).
  fold additional_args max_total_time new_corpus_dir command_line fuzz_run
    log_lines in Hcrashes.
  exists r, fs'. split; [exact Hfuzz|]. split.
  - intros before after pre ws X1 marker X2 X Hlines Hbefore Hpre Hws HX Hm.
    apply forallb_Forall_true in Hbefore, Hpre, Hws, HX.
    destruct (crash_regex_match pre ws X1 marker X2) as (m & Hmatch & Hgroup);
      [done..|].
    fold X literal in Hmatch, Hgroup.
    rewrite Hlines in Hcrashes.
    rewrite (find_crash_testcase_file_path_first before _ after m)
      in Hcrashes; [|
      eapply Forall_impl; [exact Hbefore|];
      intros l Hl; apply no_literal_no_match;
      by apply negb_true_iff in Hl |done].
    rewrite Hgroup in Hcrashes.
    rewrite decide_True in Hcrashes.
    + eexists. split; [exact Hcrashes|done].
    + intros Hempty. apply (f_equal chars) in Hempty.
      unfold chars, str in Hempty.
      rewrite String.list_ascii_of_string_of_list_ascii in Hempty.
      subst X. apply (f_equal length) in Hempty.
      rewrite !length_app in Hempty. cbn in Hempty. lia.
  - intros Hnone. apply forallb_Forall_true in Hnone.
    rewrite find_crash_testcase_file_path_none in Hcrashes; [done|].
    eapply Forall_impl; [exact Hnone|].
    intros l Hl. apply no_literal_no_match. by apply negb_true_iff in Hl.
Qed.

(** C4 (amended): in the stats of a fuzz session, [new_units_added] is
    overwritten after the merge step with the growth of the primary corpus
    (zero when the merge is skipped or fails) and is never negative when the
    engine processes leave the primary corpus alone, and
    [new_units_generated] keeps the value parsed from the engine log; the
    two are not ordered. *)
Theorem fuzz_unit_counters (options : LibFuzzerOptions)
    (reproducers_dir : string) (max_time : Z) (fs : filesystem)
    (fuzz_timeout merge_timeout timeout_limit : Z) (v : string) :
  let additional_args := arguments options ++ [_artifact_prefix reproducers_dir] in
  let max_total_time :=
    if existsb (λ arg, Py.startswith arg FORK_FLAG) additional_args
    then get_max_total_time fuzz_timeout - LIBFUZZER_FORK_MODE_CLEAN_EXIT_TIME
    else get_max_total_time fuzz_timeout in
  let new_corpus_dir := join temp_dir "new" in
  let command_line :=
    additional_args
    ++ [MAX_TOTAL_TIME_FLAG +:+ Py.fmt_d max_total_time;
        PRINT_FINAL_STATS_ARGUMENT]
    ++ [new_corpus_dir] ++ fuzz_corpus_dirs options in
  let fuzz_run :=
    run_and_wait command_line (fuzz_timeout - SIGTERM_WAIT_TIME)
      (<[new_corpus_dir := ∅]> fs) in
  let log_lines := Py.splitlines (output fuzz_run.1) in
  get_fuzz_timeout env (is_mutations_run options) max_time = Ok fuzz_timeout →
  max_total_time > 0 →
  (extract_argument (arguments options) TIMEOUT_FLAG false).1 = Some v →
  Py.int v = Ok timeout_limit →
  EngineCommon.get_merge_timeout env DEFAULT_MERGE_TIMEOUT = Ok merge_timeout →
  (∀ lines, parse_stats_from_merge_log lines !! "new_units_generated" = None) →
  (∀ lines s a,
     parse_performance_features lines s a !! "new_units_generated" = None) →
  corpus_dir options ≠ join temp_dir "merge-workdir" →
  (∀ args t fs0, ls (run_and_wait args t fs0).2 (corpus_dir options)
                 = ls fs0 (corpus_dir options)) →
  ∃ r fs' n,
    fuzz temp_dir run_and_wait env extract_argument
      parse_performance_features parse_stats_from_merge_log
      options reproducers_dir max_time fs = Ok (r, fs')
    ∧ Engine.stats r !! "new_units_added" = Some (IntStat n)
    ∧ 0 ≤ n
    ∧ Engine.stats r !! "new_units_generated"
      = IntStat <$> parse_log_stats log_lines !! "new_units_generated"
    ∧ (∀ z, foldl parse_log_line ∅ log_lines !! "new_units_added" = Some z →
            Engine.stats r !! "new_units_generated" = Some (IntStat z)).
Proof.
  intros additional_args max_total_time new_corpus_dir command_line fuzz_run
    log_lines Hft Hmtt Hextract Hint Hmt Hpm Hpf Hne Hframe.
  destruct (fuzz_returns options reproducers_dir max_time fs fuzz_timeout
              merge_timeout timeout_limit v Hft Hmtt Hextract Hint Hmt)
    as (r & fs' & n & Hfuzz & _ & Hadded & Hgen & Hn).
  fold additional_args max_total_time new_corpus_dir command_line fuzz_run
    log_lines in Hgen.
  exists r, fs', n. split; [exact Hfuzz|]. split; [exact Hadded|].
  split; [by apply Hn|]. split; [by apply Hgen|].
  intros z Hz. rewrite (Hgen Hpm Hpf). unfold parse_log_stats.
  by rewrite Hz, lookup_insert_eq.
Qed.

End fuzz_session.

(* ------------------------------------------------------------------ *)
(** ** The theorems at concrete scenarios *)
(* ------------------------------------------------------------------ *)

(** Scenario S3 of the specification: the crash reproduces up to revision
    120; the committed range is 120:130, at indices 2 and 3. *)
Lemma find_fixed_range_bisection_correct_witness :
  Progression.is_crash (Scenarios.crashes_until 120 120) = true
  ∧ Progression.is_crash (Scenarios.crashes_until 120 130) = false
  ∧ Py.index Scenarios.revisions 2 = Ok 120
  ∧ Py.index Scenarios.revisions 3 = Ok 130.
Proof.
  pose proof (find_fixed_range_bisection_correct
                0 10 None 0 (Some "/testcase") false Scenarios.revisions
                (λ _, true) (λ _, false) (Scenarios.crashes_until 120)
                {| Progression.is_crash := false;
                   Progression.crash_stacktrace := "" |}
                7 "libfuzzer_asan_job"
                (Scenarios.datastore Scenarios.testcase7)
                (Scenarios.progression (Scenarios.crashes_until 120)
                   (λ _, false) 10
                   (Scenarios.datastore Scenarios.testcase7)).2
                120 130 Scenarios.revisions 2 3) as H.
  destruct H as (H1 & H2 & H3 & H4 & _).
  - intros t. vm_compute. intros [= <-]. reflexivity.
  - vm_compute. reflexivity.
  - repeat split; assumption.
Defined.

(** C2 (counterexample): the crash still reproduces at the latest
    revision; besides the last-tested crash metadata, the stacktrace and
    the flaky mark, the run also sets [last_tested_revision] and extends
    the comments of the stored testcase. *)
Lemma find_fixed_range_still_crashes_counterexample :
  let run :=
    Scenarios.progression (Scenarios.crashes_until 140) (λ _, false) 10
      (Scenarios.datastore Scenarios.testcase7) in
  run.1 = Ok Progression.StillCrashes
  ∧ ∃ t, Progression.db run.2 !! 7 = Some t
         ∧ Progression.metadata Scenarios.testcase7 !! "last_tested_revision"
           = None
         ∧ Progression.metadata t !! "last_tested_revision"
           = Some (Progression.VInt 140)
         ∧ Progression.comments Scenarios.testcase7 = []
         ∧ Progression.comments t
           = ["Started: r140";
              "Finished: still crashes on latest revision r140"].
Proof.
  split; [vm_compute; reflexivity|].
  eexists. split; [vm_compute; reflexivity|].
  repeat split; vm_compute; reflexivity.
Qed.

(** The still-crashing run of the scenario, through the theorem. *)
Lemma find_fixed_range_still_crashes_witness :
  (Scenarios.progression (Scenarios.crashes_until 140) (λ _, false) 10
     (Scenarios.datastore Scenarios.testcase7)).1
  = Ok Progression.StillCrashes.
Proof.
  pose proof (find_fixed_range_still_crashes
                0 10 None 0 (Some "/testcase") false Scenarios.revisions
                (λ _, true) (λ _, false) (Scenarios.crashes_until 140)
                {| Progression.is_crash := false;
                   Progression.crash_stacktrace := "" |}
                7 "libfuzzer_asan_job"
                (Scenarios.datastore Scenarios.testcase7)
                Scenarios.testcase7 "/testcase" 0 4) as H.
  destruct H as [H _];
    [vm_compute; reflexivity| reflexivity | reflexivity | reflexivity
    | reflexivity | discriminate | vm_compute; reflexivity
    | vm_compute; reflexivity | reflexivity | reflexivity
    | vm_compute; reflexivity |].
  unfold Scenarios.progression. rewrite H. reflexivity.
Defined.

(** Scenario S6: the crash reproduces nowhere; the first run enqueues the
    task again, the second marks the testcase. *)
Lemma find_fixed_range_min_revision_unreliable_witness :
  ∃ w1 w2,
    Scenarios.progression (Scenarios.crashes_until 0) (λ _, false) 10
      (Scenarios.datastore Scenarios.testcase7)
    = (Ok Progression.MinRetry, w1)
    ∧ Scenarios.progression (Scenarios.crashes_until 0) (λ _, false) 10 w1
      = (Ok Progression.MinFlaky, w2).
Proof.
  pose proof (find_fixed_range_min_revision_unreliable
                0 10 None 0 (Some "/testcase") false Scenarios.revisions
                (λ _, true) (λ _, false) (Scenarios.crashes_until 0)
                {| Progression.is_crash := false;
                   Progression.crash_stacktrace := "" |}
                7 "libfuzzer_asan_job"
                (Scenarios.datastore Scenarios.testcase7)
                Scenarios.testcase7 "/testcase" 0 4) as H.
  destruct H as (w1 & w2 & t1 & t2 & H1 & _ & _ & _ & H2 & _);
    [vm_compute; reflexivity| reflexivity | reflexivity | reflexivity
    | reflexivity | reflexivity | discriminate | vm_compute; reflexivity
    | vm_compute; reflexivity | reflexivity | reflexivity
    | vm_compute; reflexivity | reflexivity | reflexivity
    | vm_compute; reflexivity |].
  exists w1, w2. split; assumption.
Defined.

(** A progression task delivered again for a closed testcase. *)
Lemma find_fixed_range_already_fixed_witness :
  Scenarios.progression (Scenarios.crashes_until 120) (λ _, false) 10
    (Scenarios.datastore Scenarios.closed_testcase7)
  = (Ok Progression.AlreadyFixed,
     {| Progression.db := {[ 7 := Scenarios.closed_testcase7 ]};
        Progression.events :=
          [Progression.LogError
             "Fixed range is already set as 120:130, skip."] |}).
Proof.
  apply (find_fixed_range_already_fixed
           0 10 None 0 (Some "/testcase") false Scenarios.revisions
           (λ _, true) (λ _, false) (Scenarios.crashes_until 120)
           {| Progression.is_crash := false;
              Progression.crash_stacktrace := "" |}
           7 "libfuzzer_asan_job"
           (Scenarios.datastore Scenarios.closed_testcase7)
           Scenarios.closed_testcase7).
  - vm_compute. reflexivity.
  - discriminate.
Defined.

(** C4 (counterexample): the engine reports one new unit, the merge moves
    two units into the corpus, and the session ends with
    [new_units_generated] = 1 and [new_units_added] = 2. *)
Lemma fuzz_unit_counters_counterexample :
  ∃ r fs',
    Scenarios.session Scenarios.two_units_merged = Ok (r, fs')
    ∧ Engine.stats r !! "new_units_generated" = Some (Launcher.IntStat 1)
    ∧ Engine.stats r !! "new_units_added" = Some (Launcher.IntStat 2)
    ∧ ¬ (1 ≥ 2).
Proof.
  eexists _, _. split; [vm_compute; reflexivity|].
  repeat split; [vm_compute; reflexivity..|lia].
Qed.

Lemma engine_leaves_corpus fuzz_output new_units merged_units args t fs0 :
  Shell.ls (Scenarios.engine fuzz_output new_units merged_units args t fs0).2
    "/corpus"
  = Shell.ls fs0 "/corpus".
Proof.
  unfold Scenarios.engine, Shell.ls. case_bool_decide; cbn [snd];
    by rewrite lookup_insert_ne.
Qed.

(** The same session through the theorem. *)
Lemma fuzz_unit_counters_witness :
  ∃ r fs' n,
    Scenarios.session Scenarios.two_units_merged = Ok (r, fs')
    ∧ Engine.stats r !! "new_units_added" = Some (Launcher.IntStat n)
    ∧ 0 ≤ n
    ∧ Engine.stats r !! "new_units_generated" = Some (Launcher.IntStat 1).
Proof.
  pose proof (fuzz_unit_counters "/tmp" Scenarios.two_units_merged
                Scenarios.no_environment Scenarios.extract_argument
                (λ _ _ _, ∅) (λ _, ∅) Scenarios.options "/reproducers"
                3600 ∅ 1470 1800 25 "25") as H.
  destruct H as (r & fs' & n & H1 & H2 & H3 & _ & H5);
    [vm_compute; reflexivity | vm_compute; reflexivity | reflexivity
    | reflexivity | vm_compute; reflexivity
    | intros; apply lookup_empty | intros; apply lookup_empty
    | discriminate | intros; apply engine_leaves_corpus |].
  exists r, fs', n. split; [exact H1|]. split; [exact H2|].
  split; [exact H3|]. apply H5. vm_compute. reflexivity.
Defined.

(** C5 (counterexample): the log has exactly one line of the form the
    specification describes, with path [/reproducers/unit-7], and the
    session returns no crash. *)
Lemma fuzz_crash_path_extraction_counterexample :
  Regex.match_group 1
    <$> Regex.re_match SpecWords.SPEC_CRASH_LINE_REGEX
          "Test unit written to /reproducers/unit-7"
  = Some "/reproducers/unit-7"
  ∧ ∃ r fs',
      Scenarios.session Scenarios.unmarked_reproducer = Ok (r, fs')
      ∧ Engine.logs r = "Test unit written to /reproducers/unit-7"
      ∧ Engine.crashes r = [].
Proof.
  split; [vm_compute; reflexivity|].
  eexists _, _. split; [vm_compute; reflexivity|].
  split; vm_compute; reflexivity.
Qed.

(** A session whose log carries a crash reproducer after other text. *)
Lemma fuzz_crash_path_extraction_witness :
  ∃ r fs' crash,
    Scenarios.session Scenarios.crash_reproducer = Ok (r, fs')
    ∧ Engine.crashes r = [crash]
    ∧ Engine.input_path crash = "/reproducers/crash-abc".
Proof.
  pose proof (fuzz_crash_path_extraction "/tmp" Scenarios.crash_reproducer
                Scenarios.no_environment Scenarios.extract_argument
                (λ _ _ _, ∅) (λ _, ∅) Scenarios.options "/reproducers"
                3600 ∅ 1470 1800 25 "25") as H.
  destruct H as (r & fs' & H1 & H2 & _);
    [vm_compute; reflexivity | vm_compute; reflexivity | reflexivity
    | reflexivity | vm_compute; reflexivity |].
  destruct (H2 ["==1== ERROR: AddressSanitizer"]
               ["stat::new_units_added: 0"]
               (Regex.chars "artifact_prefix='/reproducers/'; ")
               (Regex.chars " ")
               (Regex.chars "/reproducers/") (Regex.chars "crash")
               (Regex.chars "abc")) as (crash & Hc & Hp);
    [vm_compute; reflexivity | vm_compute; reflexivity
    | vm_compute; reflexivity | vm_compute; reflexivity
    | vm_compute; reflexivity | set_solver |].
  exists r, fs', crash. split; [exact H1|]. split; [exact Hc|]. exact Hp.
Defined.
